(** * Real-time console transcription (main.py): model and verification

    The program loads a Vosk model, opens one sounddevice input stream and
    lets the driver thread call [audio_callback] on every block, while the
    main thread sleeps in a loop until it is interrupted.

    The development follows the source file top to bottom:
    - Python string helpers used by the callback ([strip], [ljust]);
    - a terminal, to read what the carriage-return updates leave on screen;
    - the observable events, exceptions and the state-and-exception monad in
      which the statements of the script are written;
    - [audio_callback], [main] and the module body;
    - the theorems. *)

From Stdlib Require Import ZArith Ascii String List Lia Bool.
From stdpp Require Import gmap strings list.

Local Open Scope string_scope.
Local Open Scope list_scope.

(** ** Python strings

  A [string] is a sequence of code points below U+0100. *)

Module PyStr.

(** [str.isspace] on one character, for the code points below U+0100. *)
Definition isspace (c : ascii) : bool :=
  let n := nat_of_ascii c in
  ((9 <=? n)%nat && (n <=? 13)%nat) || ((28 <=? n)%nat && (n <=? 32)%nat)
  || (n =? 133)%nat || (n =? 160)%nat.

Fixpoint lstrip (s : string) : string :=
  match s with
  | EmptyString => EmptyString
  | String c s' => if isspace c then lstrip s' else s
  end.

Fixpoint rstrip (s : string) : string :=
  match s with
  | EmptyString => EmptyString
  | String c s' =>
      match rstrip s' with
      | EmptyString => if isspace c then EmptyString else String c EmptyString
      | r => String c r
      end
  end.

(** [s.strip()] *)
Definition strip (s : string) : string := rstrip (lstrip s).

(** [' ' * n] *)
Fixpoint spaces (n : nat) : string :=
  match n with
  | O => EmptyString
  | S n' => String " " (spaces n')
  end.

(** [s.ljust(width)] *)
Definition ljust (width : nat) (s : string) : string :=
  s +:+ spaces (width - String.length s).

(** Truth value of a string in a condition. *)
Definition truthy (s : string) : bool :=
  match s with
  | EmptyString => false
  | String _ _ => true
  end.

(** Every character is whitespace (true of the empty string). *)
Fixpoint all_space (s : string) : bool :=
  match s with
  | EmptyString => true
  | String c s' => isspace c && all_space s'
  end.

Definition CR : ascii := ascii_of_nat 13.
Definition LF : ascii := ascii_of_nat 10.
Definition cr : string := String CR EmptyString.
Definition lf : string := String LF EmptyString.

End PyStr.

(** ** The terminal

  What stdout shows: the lines already ended by a line feed, the cells of
  the line under the cursor and the cursor column.  A carriage return moves
  the cursor to column 0, a line feed ends the line, any other character
  takes the cell under the cursor.  The model gives a meaning to printing
  characters only, and the line is as long as needed (no wrapping). *)

Module Terminal.
Import PyStr.

Record Screen := mkScreen {
  permanent : list string;   (* finished lines, oldest first *)
  line : list ascii;         (* cells of the current line *)
  col : nat                  (* cursor column *)
}.

Definition blank : Screen := mkScreen [] [] 0.

Definition SP : ascii := " "%char.

(** Store [c] in cell [i], padding with blanks when the line is shorter. *)
Definition set_cell (i : nat) (c : ascii) (l : list ascii) : list ascii :=
  take i (l ++ repeat SP (i - length l)) ++ c :: drop (S i) l.

Definition put (scr : Screen) (c : ascii) : Screen :=
  if Ascii.eqb c CR then mkScreen (permanent scr) (line scr) 0
  else if Ascii.eqb c LF then
    mkScreen (permanent scr ++ [string_of_list_ascii (line scr)]) [] 0
  else mkScreen (permanent scr) (set_cell (col scr) c (line scr)) (S (col scr)).

Fixpoint feed (scr : Screen) (s : string) : Screen :=
  match s with
  | EmptyString => scr
  | String c s' => feed (put scr c) s'
  end.

(** A character that occupies one cell. *)
Definition printing (c : ascii) : bool :=
  let n := nat_of_ascii c in (32 <=? n)%nat && negb (n =? 127)%nat.

Fixpoint all_printing (s : string) : bool :=
  match s with
  | EmptyString => true
  | String c s' => printing c && all_printing s'
  end.

(** The text a reader sees on a line: its cells up to the last non-blank. *)
Fixpoint visible (l : list ascii) : list ascii :=
  match l with
  | [] => []
  | c :: l' =>
      match visible l' with
      | [] => if Ascii.eqb c SP then [] else [c]
      | v => c :: v
      end
  end.

Definition shown (scr : Screen) : string := string_of_list_ascii (visible (line scr)).

(** A finished line as a reader sees it. *)
Definition trimmed (s : string) : string :=
  string_of_list_ascii (visible (list_ascii_of_string s)).

End Terminal.

(** ** What the program does to the outside world *)

Inductive Fd := Stdout | Stderr.

(** The keyword arguments of [sd.InputStream]. *)
Record StreamConfig := mkStreamConfig {
  samplerate : Z;
  channels : Z;
  dtype : string;
  blocksize : Z
}.

(** The exception classes the script can meet.  [KeyboardInterrupt] and
    [SystemExit] are not subclasses of [Exception]; [ModuleNotFoundError] is a
    subclass of [ImportError]; [LibraryError] stands for the exceptions that
    vosk ([Exception]) and sounddevice ([PortAudioError]) raise. *)
Inductive Exn :=
| ModuleNotFoundError (msg : string)
| ImportError (msg : string)
| AttributeError (msg : string)
| LibraryError (msg : string)
| KeyboardInterrupt
| SystemExit (code : Z).

Definition is_Exception (e : Exn) : bool :=
  match e with
  | KeyboardInterrupt | SystemExit _ => false
  | _ => true
  end.

Definition is_ImportError (e : Exn) : bool :=
  match e with
  | ModuleNotFoundError _ | ImportError _ => true
  | _ => false
  end.

(** [str(e)] *)
Definition exn_str (e : Exn) : string :=
  match e with
  | ModuleNotFoundError m | ImportError m | AttributeError m | LibraryError m => m
  | KeyboardInterrupt => ""
  | SystemExit _ => ""
  end.

Inductive Event :=
| EImport (name : string)                      (* an import statement runs *)
| ESetLogLevel (level : Z)
| EPrint (fd : Fd) (s : string) (end_ : string) (* print(s, file=fd, end=end_) *)
| EWrite (s : string)                          (* sys.stdout.write(s) *)
| EFlush                                       (* sys.stdout.flush() *)
| EModelLoad (path : string)                   (* Model(path) is called *)
| ERecognizerNew (rate : Z)                    (* KaldiRecognizer(model, rate) is called *)
| EStreamOpen (cfg : StreamConfig)             (* sd.InputStream(...) is called *)
| EStreamStart                                 (* stream.start() *)
| EStreamStop                                  (* stream.stop() *)
| EStreamClose                                 (* stream.close() *)
| ESleep (ms : Z)                              (* sd.sleep(ms) is called *)
| EAcceptWaveform (data : list Byte.byte)           (* a block is fed to the decoder *)
| ECallbackFault (e : Exn)                     (* an exception left the callback *)
| ETraceback (e : Exn).                        (* the interpreter reports an uncaught exception *)

(** How the process ends. *)
Inductive Termination :=
| Exit (code : Z)
| KilledBySigint.

(** The characters a list of events sends to a file descriptor. *)
Definition chars_on (fd : Fd) (e : Event) : string :=
  match e, fd with
  | EPrint Stdout s end_, Stdout => s +:+ end_
  | EPrint Stderr s end_, Stderr => s +:+ end_
  | EWrite s, Stdout => s
  | _, _ => ""
  end.

Fixpoint output (fd : Fd) (evs : list Event) : string :=
  match evs with
  | [] => ""
  | e :: evs' => chars_on fd e +:+ output fd evs'
  end.

(** The lines [print] ended with a line feed on stdout. *)
Fixpoint printed_lines (evs : list Event) : list string :=
  match evs with
  | [] => []
  | EPrint Stdout s end_ :: evs' =>
      if String.eqb end_ PyStr.lf then s :: printed_lines evs' else printed_lines evs'
  | _ :: evs' => printed_lines evs'
  end.

(** ** The driver's block and its status flags *)

(** [sounddevice.CallbackFlags]: the PortAudio flag bits and their [str]. *)
Record CallbackFlags := mkFlags {
  flag_bits : N;
  flag_str : string
}.

(** [bool(status)] *)
Definition flags_truthy (status : CallbackFlags) : bool := negb (flag_bits status =? 0)%N.

(** One invocation of the callback: the arguments the driver passes. *)
Record Chunk := mkChunk {
  indata : list Z;          (* int16 samples, one channel *)
  frames : Z;
  time : Z;
  status : CallbackFlags
}.

Definition byte_of_Z (z : Z) : Byte.byte :=
  match Byte.of_N (Z.to_N (z mod 256)) with
  | Some b => b
  | None => Byte.x00
  end.

(** [indata.tobytes()] for dtype int16: two's complement, low byte first. *)
Definition tobytes (samples : list Z) : list Byte.byte :=
  flat_map (fun x => let u := (x mod 65536)%Z in [byte_of_Z u; byte_of_Z (u / 256)]) samples.

(** ** The decoder

    [KaldiRecognizer] is an opaque object with state.  [Result] and
    [PartialResult] stand for [json.loads] of the JSON text the methods
    return: a dictionary from keys to text. *)

Class Recognizer (R : Type) := {
  AcceptWaveform : R -> list Byte.byte -> bool * R;
  Result : R -> gmap string string * R;
  PartialResult : R -> gmap string string * R
}.

(** [d.get(key, "")] *)
Definition dict_get (d : gmap string string) (key : string) : string :=
  default "" (d !! key).

(** ** The script *)

Section Script.

Context {R : Type} `{Recognizer R}.

(** The state the statements act on: the module-level variable [recognizer],
    [None] until [main] assigns it, and the state of the audio stream that
    the script shares with the driver: [stream_aborted] is set once an
    exception has left the callback, after which the driver calls the
    callback no more. *)
Record Globals := mkState {
  recognizer : option R;
  stream_aborted : bool
}.

(** The state with a given value of [recognizer] and a stream that has not
    been aborted. *)
Definition mkGlobals (o : option R) : Globals := mkState o false.

Inductive Outcome (A : Type) :=
| Returned (a : A)
| Raised (e : Exn).
Arguments Returned {A} a.
Arguments Raised {A} e.

(** A statement reads and writes the globals, emits events, and either
    completes with a value or raises. *)
Definition Py (A : Type) : Type := Globals -> Outcome A * Globals * list Event.

#[local] Instance Py_ret : MRet Py := fun A a g => (Returned a, g, []).

#[local] Instance Py_bind : MBind Py := fun A B f m g =>
  match m g with
  | (Returned a, g1, evs1) =>
      match f a g1 with
      | (o, g2, evs2) => (o, g2, evs1 ++ evs2)
      end
  | (Raised e, g1, evs1) => (Raised e, g1, evs1)
  end.

Definition emit (e : Event) : Py unit := fun g => (Returned tt, g, [e]).

Definition raise {A} (e : Exn) : Py A := fun g => (Raised e, g, []).

Definition get_recognizer : Py (option R) := fun g => (Returned (recognizer g), g, []).

Definition set_recognizer (r : R) : Py unit := fun g =>
  (Returned tt, mkState (Some r) (stream_aborted g), []).

(** [try: body / except <class> as e:] with the exception handed to the
    caller, who runs the handler; other exceptions pass through. *)
Definition try_except {A} (body : Py A) (handles : Exn -> bool) : Py (Exn + A) := fun g =>
  match body g with
  | (Returned a, g1, evs) => (Returned (inr a), g1, evs)
  | (Raised e, g1, evs) =>
      if handles e then (Returned (inl e), g1, evs) else (Raised e, g1, evs)
  end.

(** [print(s)] and its variants. *)
Definition print (s : string) : Py unit := emit (EPrint Stdout s PyStr.lf).
Definition print_err (s : string) : Py unit := emit (EPrint Stderr s PyStr.lf).
Definition stdout_write (s : string) : Py unit := emit (EWrite s).
Definition stdout_flush : Py unit := emit EFlush.

(** *** Configuration *)

Definition SAMPLE_RATE : Z := 16000.
Definition BLOCKSIZE : Z := 8000.
Definition MODEL_PATH : string := "models/vosk-model-en-us-0.42-gigaspeech".

(** *** [audio_callback] *)

Definition clear_line : string := PyStr.cr +:+ PyStr.spaces 80 +:+ PyStr.cr.

Definition listening_prompt : string :=
  PyStr.ljust 80 (PyStr.cr +:+ "[Listening... Speak now]") +:+ PyStr.cr.

Definition speaking_text (partial_text : string) : string :=
  "[Speaking... " +:+ partial_text +:+ "]".

Definition speaking_line (partial_text : string) : string :=
  PyStr.cr +:+ PyStr.ljust 80 (speaking_text partial_text) +:+ PyStr.cr.

Definition audio_callback (indata : list Z) (frames : Z) (time : Z)
    (status : CallbackFlags) : Py unit :=
  (if flags_truthy status
   then print_err ("SoundDevice Status: " +:+ flag_str status)
   else mret tt) ;;
  let audio_bytes := tobytes indata in
  o ← get_recognizer ;
  match o with
  | None => raise (AttributeError "'NoneType' object has no attribute 'AcceptWaveform'")
  | Some r =>
      let '(final, r1) := AcceptWaveform r audio_bytes in
      emit (EAcceptWaveform audio_bytes) ;;
      set_recognizer r1 ;;
      if final then
        let '(result, r2) := Result r1 in
        set_recognizer r2 ;;
        let text := PyStr.strip (dict_get result "text") in
        (if PyStr.truthy text
         then stdout_write clear_line ;; print ("TRANSCRIPTION: " +:+ text)
         else mret tt) ;;
        stdout_write listening_prompt ;;
        stdout_flush
      else
        let '(partial_result, r2) := PartialResult r1 in
        set_recognizer r2 ;;
        let partial_text := PyStr.strip (dict_get partial_result "partial") in
        if PyStr.truthy partial_text
        then stdout_write (speaking_line partial_text) ;; stdout_flush
        else mret tt
  end.

(** The driver thread calls the callback with the arguments of a block.  An
    exception that leaves the callback never reaches the main thread: the
    foreign-function layer reports it on stderr and answers the driver with
    paAbort, which ends the stream.  A block that arrives on an aborted stream
    is not handed to the callback. *)
Definition run_callback (c : Chunk) : Py unit :=
  audio_callback (indata c) (frames c) (time c) (status c).

Definition deliver (c : Chunk) : Py unit := fun g =>
  if stream_aborted g then (Returned tt, g, [])
  else
    match run_callback c g with
    | (Returned _, g1, evs) => (Returned tt, g1, evs)
    | (Raised e, g1, evs) =>
        (Returned tt, mkState (recognizer g1) true, evs ++ [ECallbackFault e])
    end.

(** Blocks are handed over one at a time, in arrival order. *)
Fixpoint deliver_all (cs : list Chunk) : Py unit :=
  match cs with
  | [] => mret tt
  | c :: cs' => deliver c ;; deliver_all cs'
  end.

(** *** The environment of one run

    Everything the script asks of the outside world, fixed in advance: which
    packages are installed, which directories hold a model, the decoder that
    [KaldiRecognizer] builds, whether the audio device opens and starts, and
    the blocks the driver delivers: those that arrive once the stream is
    started, before the main thread goes on, and those that arrive while it
    sleeps.  The run ends when the interrupt arrives, during the sleep that
    follows the completed ones. *)
Record Env := mkEnv {
  installed : gset string;             (* importable third-party packages *)
  vosk_names : gset string;            (* names [from vosk import] finds *)
  model_dirs : gset string;            (* paths that hold a loadable model *)
  recognizer_new : string -> Z -> option R;
                                       (* the decoder built for a model and a rate;
                                          [None]: the constructor raises *)
  device_error : option string;        (* [Some msg]: opening the stream raises *)
  start_error : option string;         (* [Some msg]: starting the stream raises *)
  early_blocks : list Chunk;           (* blocks delivered as soon as the stream starts *)
  ticks : list (list Chunk);           (* blocks delivered during each completed sleep *)
  last_tick : list Chunk               (* blocks delivered before the interrupt *)
}.

Variable env : Env.

(** [import name] of a third-party package. *)
Definition import_ (name : string) : Py unit :=
  emit (EImport name) ;;
  if bool_decide (name ∈ installed env) then mret tt
  else raise (ModuleNotFoundError ("No module named '" +:+ name +:+ "'")).

(** [from vosk import Model, KaldiRecognizer, SetLogLevel] *)
Definition from_vosk_import (names : list string) : Py unit :=
  emit (EImport "vosk") ;;
  if bool_decide (Forall (fun n => n ∈ vosk_names env) names) then mret tt
  else raise (ImportError "cannot import name from 'vosk'").

Definition SetLogLevel (level : Z) : Py unit := emit (ESetLogLevel level).

(** [sys.exit(code)] *)
Definition sys_exit {A} (code : Z) : Py A := raise (SystemExit code).

(** [Model(path)]: the model is known by its path. *)
Definition Model (path : string) : Py string :=
  emit (EModelLoad path) ;;
  if bool_decide (path ∈ model_dirs env) then mret path
  else raise (LibraryError "Failed to create a model").

(** [KaldiRecognizer(model, rate)] *)
Definition KaldiRecognizer (model : string) (rate : Z) : Py R :=
  emit (ERecognizerNew rate) ;;
  match recognizer_new env model rate with
  | Some r => mret r
  | None => raise (LibraryError "Failed to create a recognizer")
  end.

(** [sd.InputStream(samplerate=..., channels=..., dtype=..., blocksize=...,
    callback=audio_callback)]: opens the device. *)
Definition InputStream (cfg : StreamConfig) : Py StreamConfig :=
  emit (EStreamOpen cfg) ;;
  match device_error env with
  | None => mret cfg
  | Some msg => raise (LibraryError msg)
  end.

(** [stream.__enter__]: starts the stream.  From then on the driver thread
    calls the callback on every block, whatever the main thread is doing. *)
Definition stream_enter : Py unit :=
  emit EStreamStart ;;
  match start_error env with
  | None => deliver_all (early_blocks env)
  | Some msg => raise (LibraryError msg)
  end.

(** [stream.__exit__]: stops and closes the stream. *)
Definition stream_exit : Py unit := emit EStreamStop ;; emit EStreamClose.

(** [with stream: body].  When [__enter__] raises the body and [__exit__] do
    not run; otherwise [__exit__] runs however the body ends, and an
    exception of the body goes on to the caller. *)
Definition with_stream {A} (body : Py A) : Py A := fun g =>
  match stream_enter g with
  | (Raised e, g1, evs1) => (Raised e, g1, evs1)
  | (Returned _, g1, evs1) =>
      match body g1 with
      | (o, g2, evs2) =>
          match stream_exit g2 with
          | (Returned _, g3, evs3) => (o, g3, evs1 ++ evs2 ++ evs3)
          | (Raised e, g3, evs3) => (Raised e, g3, evs1 ++ evs2 ++ evs3)
          end
      end
  end.

(** [sd.sleep(ms)] while the stream is active: the driver thread runs the
    callback on the blocks that arrive; the interrupt, when it comes, raises
    [KeyboardInterrupt] in the main thread. *)
Definition sd_sleep (ms : Z) (blocks : list Chunk) (interrupted : bool) : Py unit :=
  emit (ESleep ms) ;;
  deliver_all blocks ;;
  if interrupted then raise KeyboardInterrupt else mret tt.

(** [while True: sd.sleep(1000)], for a run whose interrupt arrives after the
    sleeps of [completed]. *)
Fixpoint wait_loop (completed : list (list Chunk)) (last : list Chunk) : Py unit :=
  match completed with
  | [] => sd_sleep 1000 last true
  | blocks :: rest => sd_sleep 1000 blocks false ;; wait_loop rest last
  end.

(** *** [main] *)

Definition stream_config : StreamConfig :=
  mkStreamConfig SAMPLE_RATE 1 "int16" BLOCKSIZE.

Definition main : Py unit :=
  print "--- Real-time Vosk Transcription ---" ;;
  print ("1. Make sure you have downloaded a Vosk model (e.g., '" +:+ MODEL_PATH +:+ "').") ;;
  print "2. Set the correct path in the MODEL_PATH variable." ;;
  print "-----------------------------------------------------" ;;
  loaded ← try_except
    (model ← Model MODEL_PATH ;
     r ← KaldiRecognizer model SAMPLE_RATE ;
     set_recognizer r)
    is_Exception ;
  match loaded with
  | inl e =>
      print (PyStr.lf +:+ "FATAL ERROR: Could not load Vosk model from '" +:+ MODEL_PATH +:+ "'.") ;;
      print "Ensure the model folder exists and the path is correct." ;;
      print (exn_str e)
      (* return *)
  | inr _ =>
      print "Model loaded successfully. Starting microphone input." ;;
      print "-----------------------------------------------------" ;;
      opened ← try_except (InputStream stream_config) is_Exception ;
      match opened with
      | inl e =>
          print "FATAL ERROR: Could not start audio stream. Check 'sounddevice' setup or device access." ;;
          print (exn_str e)
          (* return *)
      | inr stream =>
          with_stream
            (emit (EPrint Stdout "[Listening... Speak now]" "") ;; stdout_flush ;;
             wait_loop (ticks env) (last_tick env))
      end
  end.

(** *** The module body, run as a script *)

Definition module_body : Py unit :=
  import_ "sounddevice" ;;
  import_ "numpy" ;;
  (* time, sys, json: standard library *)
  import_ "vosk" ;;
  imported ← try_except
    (from_vosk_import ["Model"; "KaldiRecognizer"; "SetLogLevel"] ;;
     SetLogLevel (-1))
    is_ImportError ;
  match imported with
  | inl _ =>
      print "FATAL ERROR: The 'vosk' package could not be imported." ;;
      print "Please run: pip install vosk" ;;
      sys_exit 1
  | inr _ =>
      (* recognizer = None; def audio_callback; def main *)
      main   (* if __name__ == "__main__": main() *)
  end.

(** The interpreter around the script: an uncaught exception is reported
    and the status is 1; [SystemExit] gives its code; an uncaught
    [KeyboardInterrupt] is reported and the process ends by the signal. *)
Definition interpreter_exit (res : Outcome unit * Globals * list Event)
    : Termination * list Event :=
  match res with
  | (Returned _, _, evs) => (Exit 0, evs)
  | (Raised (SystemExit code), _, evs) => (Exit code, evs)
  | (Raised KeyboardInterrupt, _, evs) => (KilledBySigint, evs ++ [ETraceback KeyboardInterrupt])
  | (Raised e, _, evs) => (Exit 1, evs ++ [ETraceback e])
  end.

Definition run_program : Termination * list Event :=
  interpreter_exit (module_body (mkGlobals None)).

End Script.

Arguments Returned {A} a.
Arguments Raised {A} e.

(** ** Reading the console

    The presenter has no variable of its own: its state is what the current
    line of the terminal shows. *)

Inductive Presenter := Listening | Speaking | Unknown.

Definition presenter_state (scr : Terminal.Screen) : Presenter :=
  let s := string_of_list_ascii (Terminal.line scr) in
  if String.prefix "[Listening... Speak now]" s then Listening
  else if String.prefix "[Speaking... " s then Speaking
  else Unknown.

(** An update of the current line is clean when the line then shows what the
    update wrote and nothing else, as on a blank line. *)
Definition clean_update (scr : Terminal.Screen) (written : string) : Prop :=
  Terminal.shown (Terminal.feed scr written)
  = Terminal.shown (Terminal.feed Terminal.blank written).

(** The update of one block is clean on a screen: what the callback sends to
    stdout for the block, the decoder being [r], is a clean update. *)
Definition block_update_clean {R} `{Recognizer R}
    (scr : Terminal.Screen) (r : R) (c : Chunk) : Prop :=
  clean_update scr (output Stdout (snd (run_callback c (mkGlobals (Some r))))).

(** What the callback logs for the driver's status flags. *)
Definition status_log (status : CallbackFlags) : list Event :=
  if flags_truthy status
  then [EPrint Stderr ("SoundDevice Status: " +:+ flag_str status) PyStr.lf]
  else [].

Definition is_close (e : Event) : bool :=
  match e with
  | EStreamClose => true
  | _ => false
  end.

Definition is_fault (e : Event) : bool :=
  match e with
  | ECallbackFault _ => true
  | _ => false
  end.

Definition is_stream_event (e : Event) : bool :=
  match e with
  | EStreamOpen _ | EStreamStart | EStreamStop | EStreamClose => true
  | _ => false
  end.

(** The events of the callback proper. *)
Definition is_callback_event (e : Event) : bool :=
  match e with
  | EPrint _ _ _ | EWrite _ | EFlush | EAcceptWaveform _ => true
  | _ => false
  end.

(** The events of the wait loop: those of the callback, and the sleeps. *)
Definition is_loop_event (e : Event) : bool :=
  match e with
  | ESleep _ => true
  | _ => is_callback_event e
  end.

(** The events of the start of [main], before any stream call. *)
Definition banner : list Event :=
  [EPrint Stdout "--- Real-time Vosk Transcription ---" PyStr.lf;
   EPrint Stdout ("1. Make sure you have downloaded a Vosk model (e.g., '"
                  +:+ MODEL_PATH +:+ "').") PyStr.lf;
   EPrint Stdout "2. Set the correct path in the MODEL_PATH variable." PyStr.lf;
   EPrint Stdout "-----------------------------------------------------" PyStr.lf].

(** What [main] prints when the model or the decoder cannot be built. *)
Definition load_failure (reason : string) : list Event :=
  [EPrint Stdout (PyStr.lf +:+ "FATAL ERROR: Could not load Vosk model from '"
                  +:+ MODEL_PATH +:+ "'.") PyStr.lf;
   EPrint Stdout "Ensure the model folder exists and the path is correct." PyStr.lf;
   EPrint Stdout reason PyStr.lf].

(** The events from the model load to the last line before the stream. *)
Definition model_loaded : list Event :=
  [EModelLoad MODEL_PATH; ERecognizerNew SAMPLE_RATE;
   EPrint Stdout "Model loaded successfully. Starting microphone input." PyStr.lf;
   EPrint Stdout "-----------------------------------------------------" PyStr.lf].

(** What [main] prints when the stream cannot be opened. *)
Definition stream_failure (reason : string) : list Event :=
  [EPrint Stdout "FATAL ERROR: Could not start audio stream. Check 'sounddevice' setup or device access." PyStr.lf;
   EPrint Stdout reason PyStr.lf].

(** The events of the import statements when they all succeed. *)
Definition imports_done : list Event :=
  [EImport "sounddevice"; EImport "numpy"; EImport "vosk"; EImport "vosk"; ESetLogLevel (-1)].

Definition is_startup_event (e : Event) : bool :=
  match e with
  | EImport _ | EPrint _ _ _ | ETraceback _ => true
  | _ => false
  end.

Definition is_sleep (e : Event) : bool :=
  match e with
  | ESleep _ => true
  | _ => false
  end.

Fixpoint count_events (f : Event -> bool) (evs : list Event) : nat :=
  match evs with
  | [] => 0
  | e :: evs' => (if f e then 1 else 0) + count_events f evs'
  end.

(** Number of [stream.close()] calls in a run. *)
Definition close_calls (evs : list Event) : nat := count_events is_close evs.

(** All packages import and vosk has the three names. *)
Definition imports_ok {R} (env : @Env R) : Prop :=
  "sounddevice" ∈ installed env /\ "numpy" ∈ installed env /\ "vosk" ∈ installed env
  /\ Forall (fun n => n ∈ vosk_names env) ["Model"; "KaldiRecognizer"; "SetLogLevel"].

(** Everything [main] needs before it enters the [with] block. *)
Definition stream_ready {R} (env : @Env R) : Prop :=
  imports_ok env /\ MODEL_PATH ∈ model_dirs env
  /\ is_Some (recognizer_new env MODEL_PATH SAMPLE_RATE)
  /\ device_error env = None.

(** ** A scripted decoder

    A stand-in for the decoder in examples: it answers each block from a list
    of (utterance complete, text) pairs. *)

Record Scripted := mkScripted {
  todo : list (bool * string);
  heard : string
}.

#[export] Instance Scripted_recognizer : Recognizer Scripted := {|
  AcceptWaveform s _ :=
    match todo s with
    | [] => (false, mkScripted [] "")
    | (final, text) :: rest => (final, mkScripted rest text)
    end;
  Result s := ({[ "text" := heard s ]}, mkScripted (todo s) "");
  PartialResult s := ({[ "partial" := heard s ]}, s)
|}.

Definition no_flags : CallbackFlags := mkFlags 0 "".
Definition input_overflow : CallbackFlags := mkFlags 2 "input overflow".

Definition block (status : CallbackFlags) : Chunk := mkChunk [0; 258; -1]%Z 3 0 status.

(** An environment where every dependency is present, the device opens, and
    the interrupt comes after the given sleeps. *)
Definition sample_env (script : list (bool * string))
    (ticks : list (list Chunk)) (last : list Chunk) : @Env Scripted :=
  mkEnv {[ "sounddevice"; "numpy"; "vosk" ]}
        {[ "Model"; "KaldiRecognizer"; "SetLogLevel" ]}
        {[ MODEL_PATH ]}
        (fun _ _ => Some (mkScripted script ""))
        None None [] ticks last.

(** A short utterance: silence, two partial hypotheses, the final text. *)
Definition hello_script : list (bool * string) :=
  [(false, ""); (false, "hello"); (false, "hello world"); (true, "hello world")].

(** An environment where blocks arrive as soon as the stream starts, before
    the first sleep. *)
Definition early_env : @Env Scripted :=
  mkEnv {[ "sounddevice"; "numpy"; "vosk" ]}
        {[ "Model"; "KaldiRecognizer"; "SetLogLevel" ]}
        {[ MODEL_PATH ]}
        (fun _ _ => Some (mkScripted hello_script ""))
        None None [block no_flags; block no_flags] [[block no_flags]] [block no_flags].

(** The same with no model directory, with a device that does not open,
    and without the vosk package. *)
Definition env_no_model : @Env Scripted :=
  mkEnv {[ "sounddevice"; "numpy"; "vosk" ]}
        {[ "Model"; "KaldiRecognizer"; "SetLogLevel" ]}
        ∅
        (fun _ _ => Some (mkScripted [] ""))
        None None [] [] [].

Definition env_no_device : @Env Scripted :=
  mkEnv {[ "sounddevice"; "numpy"; "vosk" ]}
        {[ "Model"; "KaldiRecognizer"; "SetLogLevel" ]}
        {[ MODEL_PATH ]}
        (fun _ _ => Some (mkScripted [] ""))
        (Some "Error querying device -1") None [] [] [].

Definition env_no_vosk : @Env Scripted :=
  mkEnv {[ "sounddevice"; "numpy" ]}
        ∅
        {[ MODEL_PATH ]}
        (fun _ _ => Some (mkScripted [] ""))
        None None [] [] [].

(** A partial text whose speaking line is wider than 80 columns. *)
Definition long_text : string :=
  "the quick brown fox jumps over the lazy dog and keeps on running far away".

(** A longer partial text, as the decoder gives when the speaker goes on. *)
Definition longer_text : string := long_text +:+ " from here".

(** A partial text whose speaking line is exactly 80 columns wide, and one
    with a carriage return inside. *)
Definition full_width_text : string :=
  "the quick brown fox jumps over the lazy dog and then it runs away.".

Definition text_with_return : string := "a" +:+ PyStr.cr +:+ "b".


(** ** Reading traces *)

(** The byte strings handed to [AcceptWaveform], in call order. *)
Fixpoint fed (evs : list Event) : list (list Byte.byte) :=
  match evs with
  | [] => []
  | EAcceptWaveform data :: evs' => data :: fed evs'
  | _ :: evs' => fed evs'
  end.

Definition is_open (e : Event) : bool :=
  match e with
  | EStreamOpen _ => true
  | _ => false
  end.

Definition is_start (e : Event) : bool :=
  match e with
  | EStreamStart => true
  | _ => false
  end.

Definition is_stop (e : Event) : bool :=
  match e with
  | EStreamStop => true
  | _ => false
  end.

Definition is_accept (e : Event) : bool :=
  match e with
  | EAcceptWaveform _ => true
  | _ => false
  end.

(** A decoder whose results carry no key at all. *)
Record Keyless := mkKeyless {
  answers_final : bool
}.

#[export] Instance Keyless_recognizer : Recognizer Keyless := {|
  AcceptWaveform s _ := (answers_final s, s);
  Result s := (∅, s);
  PartialResult s := (∅, s)
|}.

(** The int16 sample two bytes stand for, low byte first. *)
Definition int16_of_bytes (lo hi : Byte.byte) : Z :=
  let u := (Z.of_N (Byte.to_N lo) + 256 * Z.of_N (Byte.to_N hi))%Z in
  if (u <? 32768)%Z then u else (u - 65536)%Z.

(** The samples of a byte string ([numpy.frombuffer(b, dtype='int16')]); a
    trailing odd byte is dropped. *)
Fixpoint frombytes (b : list Byte.byte) : list Z :=
  match b with
  | lo :: hi :: rest => int16_of_bytes lo hi :: frombytes rest
  | _ => []
  end.

(** Environments where vosk lacks a name, where the decoder cannot be built,
    and where the stream opens but does not start. *)
Definition env_no_names : @Env Scripted :=
  mkEnv {[ "sounddevice"; "numpy"; "vosk" ]}
        {[ "Model"; "SetLogLevel" ]}
        {[ MODEL_PATH ]}
        (fun _ _ => Some (mkScripted [] ""))
        None None [] [] [].

Definition env_no_recognizer : @Env Scripted :=
  mkEnv {[ "sounddevice"; "numpy"; "vosk" ]}
        {[ "Model"; "KaldiRecognizer"; "SetLogLevel" ]}
        {[ MODEL_PATH ]}
        (fun _ _ => None)
        None None [] [] [].

Definition env_no_start : @Env Scripted :=
  mkEnv {[ "sounddevice"; "numpy"; "vosk" ]}
        {[ "Model"; "KaldiRecognizer"; "SetLogLevel" ]}
        {[ MODEL_PATH ]}
        (fun _ _ => Some (mkScripted [] ""))
        None (Some "Error starting stream") [block no_flags] [] [].

(** ** Running statements in proofs

    [py_run] unfolds the monad and the primitive statements of the callback;
    [py_main] also unfolds the statements of [main] and of the module body;
    both leave the states written with [mkGlobals]. *)

Ltac fold_globals :=
  repeat match goal with
         | |- context [mkState ?o false] => change (mkState o false) with (mkGlobals o)
         end.

Ltac py_run :=
  cbv [mbind Py_bind mret Py_ret get_recognizer set_recognizer recognizer
       stream_aborted mkGlobals raise print print_err stdout_write stdout_flush emit];
  fold_globals.

Ltac py_main :=
  cbv [main module_body import_ from_vosk_import SetLogLevel sys_exit Model
       KaldiRecognizer InputStream stream_enter stream_exit with_stream try_except
       sd_sleep mbind Py_bind mret Py_ret get_recognizer set_recognizer recognizer
       stream_aborted mkGlobals raise print print_err stdout_write stdout_flush emit
       is_Exception is_ImportError interpreter_exit run_program];
  fold_globals.

(** ** Facts about strings *)

Section StringFacts.
Import PyStr.

Lemma chars_app (a b : string) :
  list_ascii_of_string (a +:+ b) = list_ascii_of_string a ++ list_ascii_of_string b.
Proof. induction a as [|c a IH]; simpl; [reflexivity | now rewrite IH]. Qed.

Lemma chars_spaces (n : nat) : list_ascii_of_string (spaces n) = repeat Terminal.SP n.
Proof. induction n as [|n IH]; simpl; [reflexivity | now rewrite IH]. Qed.

Lemma length_chars (s : string) : length (list_ascii_of_string s) = String.length s.
Proof. induction s as [|c s IH]; simpl; [reflexivity | now rewrite IH]. Qed.

Lemma length_append (a b : string) :
  String.length (a +:+ b) = String.length a + String.length b.
Proof. induction a as [|c a IH]; simpl; [reflexivity | now rewrite IH]. Qed.

Lemma string_app_assoc (a b c : string) : (a +:+ b) +:+ c = a +:+ (b +:+ c).
Proof.
  induction a as [|x a IH]; [reflexivity|].
  change (String x ((a +:+ b) +:+ c) = String x (a +:+ (b +:+ c))).
  now rewrite IH.
Qed.

Lemma length_spaces (n : nat) : String.length (spaces n) = n.
Proof. induction n as [|n IH]; simpl; [reflexivity | now rewrite IH]. Qed.

Lemma length_ljust (w : nat) (s : string) :
  String.length (ljust w s) = Nat.max w (String.length s).
Proof. unfold ljust. rewrite length_append, length_spaces. lia. Qed.

Lemma truthy_nonempty (s : string) : truthy s = true <-> s <> "".
Proof. destruct s; simpl; split; congruence. Qed.

Lemma truthy_empty (s : string) : truthy s = false <-> s = "".
Proof. destruct s; simpl; split; congruence. Qed.

End StringFacts.

(** ** Facts about the terminal *)

Section TerminalFacts.
Import PyStr Terminal.

Lemma feed_app (scr : Screen) (a b : string) :
  feed scr (a +:+ b) = feed (feed scr a) b.
Proof. revert scr. induction a as [|c a IH]; intros scr; simpl; [reflexivity | apply IH]. Qed.

Lemma feed_cr (scr : Screen) :
  feed scr cr = mkScreen (permanent scr) (line scr) 0.
Proof. reflexivity. Qed.

Lemma printing_not_control (c : ascii) :
  printing c = true -> Ascii.eqb c CR = false /\ Ascii.eqb c LF = false.
Proof.
  intros Hp. split.
  - destruct (Ascii.eqb_spec c CR) as [->|]; [discriminate Hp | reflexivity].
  - destruct (Ascii.eqb_spec c LF) as [->|]; [discriminate Hp | reflexivity].
Qed.

Lemma put_printing (p : list string) (l : list ascii) (k : nat) (c : ascii) :
  printing c = true ->
  put (mkScreen p l k) c = mkScreen p (set_cell k c l) (S k).
Proof.
  intros Hp. destruct (printing_not_control c Hp) as [Hcr Hlf].
  unfold put. now rewrite Hcr, Hlf.
Qed.

(** Writing over the cell just after the text [w] written so far. *)
Lemma set_cell_next (w l : list ascii) (c : ascii) :
  set_cell (length w) c (w ++ drop (length w) l)
  = (w ++ [c]) ++ drop (length (w ++ [c])) l.
Proof.
  unfold set_cell.
  rewrite take_app_le by (rewrite length_app; lia).
  rewrite take_app_length.
  rewrite drop_app_ge by lia.
  rewrite drop_drop, length_app. simpl.
  rewrite <- app_assoc. simpl.
  do 3 f_equal. lia.
Qed.

(** Printing characters written after [w] extend it and leave the rest of the
    old line where it was. *)
Lemma feed_printing_from (s : string) : forall (p : list string) (w l : list ascii),
  all_printing s = true ->
  feed (mkScreen p (w ++ drop (length w) l) (length w)) s
  = mkScreen p ((w ++ list_ascii_of_string s)
                ++ drop (length (w ++ list_ascii_of_string s)) l)
             (length (w ++ list_ascii_of_string s)).
Proof.
  induction s as [|c s IH]; intros p w l Hs; simpl.
  - now rewrite app_nil_r.
  - simpl in Hs. apply andb_prop in Hs as [Hc Hs].
    rewrite put_printing by exact Hc.
    rewrite set_cell_next.
    replace (S (length w)) with (length (w ++ [c])) by (rewrite length_app; simpl; lia).
    rewrite (IH p (w ++ [c]) l Hs).
    now rewrite <- !app_assoc.
Qed.

Lemma feed_printing (s : string) (p : list string) (l : list ascii) :
  all_printing s = true ->
  feed (mkScreen p l 0) s
  = mkScreen p (list_ascii_of_string s ++ drop (String.length s) l) (String.length s).
Proof.
  intros Hs. pose proof (feed_printing_from s p [] l Hs) as E.
  simpl in E. rewrite drop_0 in E. now rewrite length_chars in E.
Qed.

Lemma all_printing_app (a b : string) :
  all_printing (a +:+ b) = all_printing a && all_printing b.
Proof. induction a as [|c a IH]; simpl; [reflexivity | now rewrite IH, andb_assoc]. Qed.

Lemma all_printing_spaces (n : nat) : all_printing (spaces n) = true.
Proof. induction n as [|n IH]; simpl; [reflexivity | exact IH]. Qed.

Lemma all_printing_ljust (w : nat) (s : string) :
  all_printing s = true -> all_printing (ljust w s) = true.
Proof. intros Hs. unfold ljust. now rewrite all_printing_app, Hs, all_printing_spaces. Qed.

(** *** What is visible *)

Lemma visible_blank (b : list ascii) : Forall (fun c => c = SP) b -> visible b = [].
Proof.
  induction 1 as [|c b -> _ IH]; simpl; [reflexivity | now rewrite IH].
Qed.

Lemma blank_repeat (n : nat) : Forall (fun c => c = SP) (repeat SP n).
Proof. induction n as [|n IH]; simpl; constructor; [reflexivity | exact IH]. Qed.

Lemma visible_app_blank (l b : list ascii) :
  Forall (fun c => c = SP) b -> visible (l ++ b) = visible l.
Proof.
  intros Hb. induction l as [|c l IH]; simpl.
  - now apply visible_blank.
  - now rewrite IH.
Qed.

Lemma visible_ends_nonblank (l : list ascii) (c : ascii) :
  c <> SP -> visible (l ++ [c]) = l ++ [c].
Proof.
  intros Hc. induction l as [|a l IH]; simpl.
  - destruct (Ascii.eqb_spec c SP); [contradiction | reflexivity].
  - rewrite IH. destruct l; reflexivity.
Qed.

Lemma blank_beyond_visible (l : list ascii) : forall n,
  length (visible l) <= n -> Forall (fun c => c = SP) (drop n l).
Proof.
  induction l as [|a l IH]; intros n Hn.
  - rewrite drop_nil. constructor.
  - simpl in Hn. destruct n as [|n].
    + rewrite drop_0. destruct (visible l) eqn:Ev.
      * destruct (Ascii.eqb_spec a SP) as [->|]; [|simpl in Hn; lia].
        constructor; [reflexivity|]. specialize (IH 0). rewrite drop_0 in IH.
        apply IH. simpl; lia.
      * simpl in Hn. lia.
    + simpl. apply IH. destruct (visible l) eqn:Ev; simpl in *; [lia|].
      lia.
Qed.

End TerminalFacts.

(** ** The callback on one block *)

Section CallbackFacts.
Import PyStr Terminal.
Context {R : Type} `{Recognizer R}.

Implicit Types (c : Chunk) (r : R) (g : @Globals R).

(** The four paths through the callback once the decoder exists. *)

Lemma callback_final_text c r r1 r2 result :
  AcceptWaveform r (tobytes (indata c)) = (true, r1) ->
  Result r1 = (result, r2) ->
  truthy (strip (dict_get result "text")) = true ->
  run_callback c (mkGlobals (Some r))
  = (Returned tt, mkGlobals (Some r2),
     status_log (status c)
     ++ [EAcceptWaveform (tobytes (indata c)); EWrite clear_line;
         EPrint Stdout ("TRANSCRIPTION: " +:+ strip (dict_get result "text")) lf;
         EWrite listening_prompt; EFlush]).
Proof.
  intros Ha Hr Ht. unfold run_callback, audio_callback, status_log.
  destruct (flags_truthy (status c)); py_run; rewrite Ha; py_run; rewrite Hr;
    py_run; rewrite Ht; py_run; reflexivity.
Qed.

Lemma callback_final_empty c r r1 r2 result :
  AcceptWaveform r (tobytes (indata c)) = (true, r1) ->
  Result r1 = (result, r2) ->
  truthy (strip (dict_get result "text")) = false ->
  run_callback c (mkGlobals (Some r))
  = (Returned tt, mkGlobals (Some r2),
     status_log (status c)
     ++ [EAcceptWaveform (tobytes (indata c)); EWrite listening_prompt; EFlush]).
Proof.
  intros Ha Hr Ht. unfold run_callback, audio_callback, status_log.
  destruct (flags_truthy (status c)); py_run; rewrite Ha; py_run; rewrite Hr;
    py_run; rewrite Ht; py_run; reflexivity.
Qed.

Lemma callback_partial_text c r r1 r2 partial_result :
  AcceptWaveform r (tobytes (indata c)) = (false, r1) ->
  PartialResult r1 = (partial_result, r2) ->
  truthy (strip (dict_get partial_result "partial")) = true ->
  run_callback c (mkGlobals (Some r))
  = (Returned tt, mkGlobals (Some r2),
     status_log (status c)
     ++ [EAcceptWaveform (tobytes (indata c));
         EWrite (speaking_line (strip (dict_get partial_result "partial"))); EFlush]).
Proof.
  intros Ha Hr Ht. unfold run_callback, audio_callback, status_log.
  destruct (flags_truthy (status c)); py_run; rewrite Ha; py_run; rewrite Hr;
    py_run; rewrite Ht; py_run; reflexivity.
Qed.

Lemma callback_partial_empty c r r1 r2 partial_result :
  AcceptWaveform r (tobytes (indata c)) = (false, r1) ->
  PartialResult r1 = (partial_result, r2) ->
  truthy (strip (dict_get partial_result "partial")) = false ->
  run_callback c (mkGlobals (Some r))
  = (Returned tt, mkGlobals (Some r2),
     status_log (status c) ++ [EAcceptWaveform (tobytes (indata c))]).
Proof.
  intros Ha Hr Ht. unfold run_callback, audio_callback, status_log.
  destruct (flags_truthy (status c)); py_run; rewrite Ha; py_run; rewrite Hr;
    py_run; rewrite Ht; py_run; reflexivity.
Qed.

(** Without a decoder the attribute lookup fails, after the status log. *)
Lemma callback_without_recognizer c :
  run_callback c (mkGlobals None)
  = (Raised (AttributeError "'NoneType' object has no attribute 'AcceptWaveform'"),
     mkGlobals None, status_log (status c)).
Proof.
  unfold run_callback, audio_callback, status_log.
  destruct (flags_truthy (status c)); py_run; reflexivity.
Qed.

Lemma status_log_callback_events (s : CallbackFlags) :
  forallb is_callback_event (status_log s) = true.
Proof. unfold status_log. destruct (flags_truthy s); reflexivity. Qed.

(** With a decoder the callback always completes, keeps a decoder in the
    global, and only prints, writes, flushes and feeds. *)
Lemma callback_completes c r :
  exists r' evs,
    run_callback c (mkGlobals (Some r)) = (Returned tt, mkGlobals (Some r'), evs)
    /\ forallb is_callback_event evs = true.
Proof.
  destruct (AcceptWaveform r (tobytes (indata c))) as [final r1] eqn:Ha.
  destruct final.
  - destruct (Result r1) as [result r2] eqn:Hr.
    destruct (truthy (strip (dict_get result "text"))) eqn:Ht.
    + eexists _, _. split; [eapply callback_final_text; eassumption|].
      rewrite forallb_app, status_log_callback_events. reflexivity.
    + eexists _, _. split; [eapply callback_final_empty; eassumption|].
      rewrite forallb_app, status_log_callback_events. reflexivity.
  - destruct (PartialResult r1) as [result r2] eqn:Hr.
    destruct (truthy (strip (dict_get result "partial"))) eqn:Ht.
    + eexists _, _. split; [eapply callback_partial_text; eassumption|].
      rewrite forallb_app, status_log_callback_events. reflexivity.
    + eexists _, _. split; [eapply callback_partial_empty; eassumption|].
      rewrite forallb_app, status_log_callback_events. reflexivity.
Qed.

Lemma deliver_returned c r r' evs :
  run_callback c (mkGlobals (Some r)) = (Returned tt, mkGlobals (Some r'), evs) ->
  deliver c (mkGlobals (Some r)) = (Returned tt, mkGlobals (Some r'), evs).
Proof. unfold deliver. now intros ->. Qed.

Lemma deliver_completes c r :
  exists r' evs,
    deliver c (mkGlobals (Some r)) = (Returned tt, mkGlobals (Some r'), evs)
    /\ forallb is_callback_event evs = true.
Proof.
  destruct (callback_completes c r) as (r' & evs & E & Hev).
  exists r', evs. split; [now apply deliver_returned | exact Hev].
Qed.

(** On an aborted stream no block reaches the callback. *)
Lemma aborted_stream_delivers_nothing (cs : list Chunk) (o : option R) :
  deliver_all cs (mkState o true) = (Returned tt, mkState o true, []).
Proof.
  induction cs as [|c cs IH]; [reflexivity|].
  simpl. py_run. unfold deliver at 1. cbn [stream_aborted]. now rewrite IH.
Qed.

(** Delivery never raises in the main thread, whatever the callback does. *)
Lemma deliver_total c g : exists g' evs, deliver c g = (Returned tt, g', evs).
Proof.
  unfold deliver. destruct (stream_aborted g); [eauto|].
  destruct (run_callback c g) as [[[a|e] g1] evs]; eauto.
Qed.

Lemma deliver_all_cons c cs g g1 evs1 :
  deliver c g = (Returned tt, g1, evs1) ->
  deliver_all (c :: cs) g
  = (let '(o, g2, evs2) := deliver_all cs g1 in (o, g2, evs1 ++ evs2)).
Proof. intros E. simpl. py_run. rewrite E. now destruct (deliver_all cs g1) as [[o g2] evs2]. Qed.

Lemma deliver_all_app (pre post : list Chunk) : forall g g1 evs1,
  deliver_all pre g = (Returned tt, g1, evs1) ->
  deliver_all (pre ++ post) g
  = (let '(o, g2, evs2) := deliver_all post g1 in (o, g2, evs1 ++ evs2)).
Proof.
  induction pre as [|c pre IH]; intros g g1 evs1 E.
  - simpl in E. py_run. injection E as <- <-. simpl.
    now destruct (deliver_all post g) as [[o g2] evs2].
  - destruct (deliver_total c g) as (gc & evc & Ec).
    rewrite (deliver_all_cons _ _ _ _ _ Ec) in E.
    change ((c :: pre) ++ post) with (c :: (pre ++ post)).
    rewrite (deliver_all_cons _ _ _ _ _ Ec).
    destruct (deliver_all pre gc) as [[o gp] evp] eqn:Ep.
    injection E as -> -> <-.
    rewrite (IH gc g1 evp Ep).
    destruct (deliver_all post g1) as [[o g2] evs2].
    now rewrite app_assoc.
Qed.

Lemma deliver_all_completes (cs : list Chunk) : forall r,
  exists r' evs,
    deliver_all cs (mkGlobals (Some r)) = (Returned tt, mkGlobals (Some r'), evs)
    /\ forallb is_callback_event evs = true.
Proof.
  induction cs as [|c cs IH]; intros r.
  - exists r, []. split; reflexivity.
  - destruct (deliver_completes c r) as (r1 & evs1 & E1 & H1).
    destruct (IH r1) as (r2 & evs2 & E2 & H2).
    exists r2, (evs1 ++ evs2). split.
    + rewrite (deliver_all_cons _ _ _ _ _ E1), E2. reflexivity.
    + now rewrite forallb_app, H1, H2.
Qed.

(** *** What the callback's output does to the screen *)

Lemma output_app (fd : Fd) (a b : list Event) :
  output fd (a ++ b) = output fd a +:+ output fd b.
Proof.
  induction a as [|e a IH]; simpl; [reflexivity|].
  rewrite IH. now rewrite string_app_assoc.
Qed.

Lemma status_log_stdout (s : CallbackFlags) : output Stdout (status_log s) = "".
Proof. unfold status_log. destruct (flags_truthy s); reflexivity. Qed.

Lemma printed_lines_app (a b : list Event) :
  printed_lines (a ++ b) = printed_lines a ++ printed_lines b.
Proof.
  induction a as [|e a IH]; simpl; [reflexivity|].
  destruct e as [| |[] s end_| | | | | | | | | | | |]; try exact IH.
  destruct (String.eqb end_ lf); simpl; now rewrite IH.
Qed.

Lemma status_log_printed (s : CallbackFlags) : printed_lines (status_log s) = [].
Proof. unfold status_log. destruct (flags_truthy s); reflexivity. Qed.

(** After the prompt is written the line starts with it, whatever was there. *)
Lemma listening_after_prompt (scr : Screen) :
  presenter_state (feed scr listening_prompt) = Listening.
Proof.
  set (text := "[Listening... Speak now]" +:+ spaces 55).
  change listening_prompt with (cr +:+ text +:+ cr).
  rewrite feed_app, (feed_cr scr), feed_app.
  rewrite feed_printing by reflexivity.
  rewrite feed_cr. unfold presenter_state. simpl line.
  reflexivity.
Qed.

Lemma prompt_keeps_permanent (scr : Screen) :
  permanent (feed scr listening_prompt) = permanent scr.
Proof.
  set (text := "[Listening... Speak now]" +:+ spaces 55).
  change listening_prompt with (cr +:+ text +:+ cr).
  rewrite feed_app, (feed_cr scr), feed_app.
  rewrite feed_printing by reflexivity.
  reflexivity.
Qed.

Lemma string_app_nil_r (s : string) : s +:+ "" = s.
Proof.
  induction s as [|x s IH]; [reflexivity|].
  change (String x (s +:+ "") = String x s). now rewrite IH.
Qed.

Lemma stdout_of_write (st : CallbackFlags) (b : list Byte.byte) (s : string) :
  output Stdout (status_log st ++ [EAcceptWaveform b; EWrite s; EFlush]) = s.
Proof.
  rewrite output_app, status_log_stdout.
  change (s +:+ "" = s). apply string_app_nil_r.
Qed.

Lemma stdout_of_feed_only (st : CallbackFlags) (b : list Byte.byte) :
  output Stdout (status_log st ++ [EAcceptWaveform b]) = "".
Proof. rewrite output_app, status_log_stdout. reflexivity. Qed.

Lemma stdout_of_transcript (st : CallbackFlags) (b : list Byte.byte) (t : string) :
  output Stdout
    (status_log st
     ++ [EAcceptWaveform b; EWrite clear_line; EPrint Stdout ("TRANSCRIPTION: " +:+ t) lf;
         EWrite listening_prompt; EFlush])
  = clear_line +:+ (("TRANSCRIPTION: " +:+ t) +:+ lf) +:+ listening_prompt.
Proof.
  rewrite output_app, status_log_stdout.
  change (clear_line +:+ (("TRANSCRIPTION: " +:+ t) +:+ lf) +:+ listening_prompt +:+ ""
          = clear_line +:+ (("TRANSCRIPTION: " +:+ t) +:+ lf) +:+ listening_prompt).
  now rewrite string_app_nil_r.
Qed.

Lemma stderr_of_callback (st : CallbackFlags) (evs : list Event) :
  forallb (fun e => match e with EPrint Stderr _ _ => false | _ => true end) evs = true ->
  output Stderr (status_log st ++ evs) = output Stderr (status_log st).
Proof.
  intros Hq. rewrite output_app.
  assert (output Stderr evs = "") as ->.
  { induction evs as [|e evs IH]; [reflexivity|].
    simpl in Hq. apply andb_prop in Hq as [He Hq].
    simpl. rewrite (IH Hq).
    destruct e as [| |[] s end_| | | | | | | | | | | |]; try reflexivity; discriminate He. }
  apply string_app_nil_r.
Qed.

(** The speaking line on a screen whose current text is no wider than what
    the write covers. *)
Lemma speaking_line_shown (scr : Screen) (p : string) :
  all_printing p = true ->
  length (visible (line scr)) <= Nat.max 80 (14 + String.length p) ->
  shown (feed scr (speaking_line p)) = speaking_text p
  /\ permanent (feed scr (speaking_line p)) = permanent scr
  /\ col (feed scr (speaking_line p)) = 0.
Proof.
  intros Hp Hw.
  assert (all_printing (ljust 80 (speaking_text p)) = true) as Hall.
  { apply all_printing_ljust. unfold speaking_text.
    now rewrite !all_printing_app, Hp. }
  assert (String.length (speaking_text p) = 14 + String.length p) as Hlen.
  { unfold speaking_text. rewrite !length_append. simpl. lia. }
  unfold speaking_line.
  rewrite feed_app, (feed_cr scr), feed_app, (feed_printing _ _ _ Hall), feed_cr.
  split; [|split; reflexivity].
  unfold shown. cbn [line].
  rewrite visible_app_blank.
  2:{ apply blank_beyond_visible. rewrite length_ljust, Hlen. exact Hw. }
  unfold ljust. rewrite chars_app, chars_spaces.
  rewrite visible_app_blank by apply blank_repeat.
  unfold speaking_text. rewrite <- string_app_assoc, chars_app.
  change (list_ascii_of_string "]") with ["]"%char].
  rewrite visible_ends_nonblank by discriminate.
  change ["]"%char] with (list_ascii_of_string "]").
  rewrite <- chars_app. apply string_of_list_ascii_of_string.
Qed.

(** *** The claims about one block *)

(** C1: when AcceptWaveform reports a complete utterance and the stripped
    final text [t] is non-empty, the callback prints exactly one line,
    "TRANSCRIPTION: " followed by [t], then rewrites the listening prompt
    (the current line of any screen then shows the prompt); all of this is
    emitted after the events of the earlier blocks and before the first event
    of any later block. *)
Theorem C1_final_text_prints_one_line
    (pre post : list Chunk) c g (r r1 r2 : R)
    (result : gmap string string) (evs_pre : list Event) :
  deliver_all pre g = (Returned tt, mkGlobals (Some r), evs_pre) ->
  AcceptWaveform r (tobytes (indata c)) = (true, r1) ->
  Result r1 = (result, r2) ->
  truthy (strip (dict_get result "text")) = true ->
  let t := strip (dict_get result "text") in
  let evs :=
    status_log (status c)
    ++ [EAcceptWaveform (tobytes (indata c)); EWrite clear_line;
        EPrint Stdout ("TRANSCRIPTION: " +:+ t) lf;
        EWrite listening_prompt; EFlush] in
  run_callback c (mkGlobals (Some r)) = (Returned tt, mkGlobals (Some r2), evs)
  /\ printed_lines evs = ["TRANSCRIPTION: " +:+ t]
  /\ output Stdout evs = clear_line +:+ (("TRANSCRIPTION: " +:+ t) +:+ lf) +:+ listening_prompt
  /\ (forall scr, presenter_state (feed scr (output Stdout evs)) = Listening)
  /\ exists o g' evs_post,
       deliver_all post (mkGlobals (Some r2)) = (o, g', evs_post)
       /\ deliver_all (pre ++ c :: post) g = (o, g', evs_pre ++ evs ++ evs_post).
Proof.
  intros Hpre Ha Hr Ht t evs.
  pose proof (callback_final_text c r r1 r2 result Ha Hr Ht) as Hrun.
  fold t in Hrun. fold evs in Hrun.
  split; [exact Hrun|].
  split; [unfold evs; now rewrite printed_lines_app, status_log_printed|].
  split; [apply stdout_of_transcript|].
  split.
  - intros scr. unfold evs. rewrite stdout_of_transcript.
    rewrite <- string_app_assoc, feed_app. apply listening_after_prompt.
  - destruct (deliver_all post (mkGlobals (Some r2))) as [[o g'] evs_post] eqn:Epost.
    exists o, g', evs_post. split; [reflexivity|].
    rewrite (deliver_all_app pre (c :: post) g _ _ Hpre).
    rewrite (deliver_all_cons c post _ _ _ (deliver_returned _ _ _ _ Hrun)).
    now rewrite Epost.
Qed.

(** C9: when AcceptWaveform reports a complete utterance whose stripped text
    is empty, the callback prints no line, writes nothing to stderr beyond
    the status log, and only rewrites the listening prompt: on any screen the
    finished lines are unchanged and the current line shows the prompt. *)
Theorem C9_empty_final_redisplays_prompt c (r r1 r2 : R) (result : gmap string string) :
  AcceptWaveform r (tobytes (indata c)) = (true, r1) ->
  Result r1 = (result, r2) ->
  strip (dict_get result "text") = "" ->
  let evs :=
    status_log (status c)
    ++ [EAcceptWaveform (tobytes (indata c)); EWrite listening_prompt; EFlush] in
  run_callback c (mkGlobals (Some r)) = (Returned tt, mkGlobals (Some r2), evs)
  /\ printed_lines evs = []
  /\ output Stdout evs = listening_prompt
  /\ output Stderr evs = output Stderr (status_log (status c))
  /\ forall scr,
       permanent (feed scr (output Stdout evs)) = permanent scr
       /\ presenter_state (feed scr (output Stdout evs)) = Listening.
Proof.
  intros Ha Hr Ht evs.
  apply truthy_empty in Ht.
  split; [exact (callback_final_empty c r r1 r2 result Ha Hr Ht)|].
  split; [unfold evs; now rewrite printed_lines_app, status_log_printed|].
  split; [apply stdout_of_write|].
  split; [now apply stderr_of_callback|].
  intros scr. unfold evs. rewrite stdout_of_write.
  split; [apply prompt_keeps_permanent | apply listening_after_prompt].
Qed.

(** C7: a call with a truthy status flag does what the same call without flags
    does, after one more line on stderr, "SoundDevice Status: " and the
    flags: the block is fed to the decoder and the call completes. *)
Theorem C7_status_logged_block_processed
    (samples : list Z) (n t : Z) (flags : CallbackFlags) (r : R) :
  flags_truthy flags = true ->
  exists r' evs,
    audio_callback samples n t no_flags (mkGlobals (Some r))
    = (Returned tt, mkGlobals (Some r'), EAcceptWaveform (tobytes samples) :: evs)
    /\ audio_callback samples n t flags (mkGlobals (Some r))
       = (Returned tt, mkGlobals (Some r'),
          EPrint Stderr ("SoundDevice Status: " +:+ flag_str flags) lf
          :: EAcceptWaveform (tobytes samples) :: evs).
Proof.
  intros Hf. unfold audio_callback. rewrite Hf.
  change (flags_truthy no_flags) with false. py_run.
  destruct (AcceptWaveform r (tobytes samples)) as [[] r1]; py_run.
  - destruct (Result r1) as [result r2]; py_run.
    destruct (truthy (strip (dict_get result "text"))); py_run;
      eexists _, _; split; reflexivity.
  - destruct (PartialResult r1) as [result r2]; py_run.
    destruct (truthy (strip (dict_get result "partial"))); py_run;
      eexists _, _; split; reflexivity.
Qed.

(** C2 (amended): on a partial result whose stripped text [p] has printing
    characters only: when [p] is non-empty and the current text of the screen
    is no wider than the max(80, 14 + len p) columns the write covers, the
    callback writes the speaking line, the update is clean and the screen
    shows "[Speaking... p]"; when [p] is empty the callback writes nothing and
    the screen stays as it was. *)
Theorem C2_partial_update_clean_when_covered
    (scr : Screen) c (r r1 r2 : R) (partial_result : gmap string string) :
  AcceptWaveform r (tobytes (indata c)) = (false, r1) ->
  PartialResult r1 = (partial_result, r2) ->
  all_printing (strip (dict_get partial_result "partial")) = true ->
  (truthy (strip (dict_get partial_result "partial")) = true ->
   length (visible (line scr))
   <= Nat.max 80 (14 + String.length (strip (dict_get partial_result "partial")))) ->
  let p := strip (dict_get partial_result "partial") in
  exists evs,
    run_callback c (mkGlobals (Some r)) = (Returned tt, mkGlobals (Some r2), evs)
    /\ output Stdout evs = (if truthy p then speaking_line p else "")
    /\ shown (feed scr (output Stdout evs))
       = (if truthy p then speaking_text p else shown scr)
    /\ permanent (feed scr (output Stdout evs)) = permanent scr
    /\ (if truthy p then clean_update scr (output Stdout evs)
        else feed scr (output Stdout evs) = scr).
Proof.
  intros Ha Hr Hp Hw p. fold p in Hp, Hw.
  destruct (truthy p) eqn:Ht.
  - eexists. split; [exact (callback_partial_text c r r1 r2 partial_result Ha Hr Ht)|].
    rewrite stdout_of_write. fold p.
    destruct (speaking_line_shown scr p Hp (Hw eq_refl)) as (Hs & Hperm & _).
    repeat split; try assumption.
    unfold clean_update. rewrite Hs.
    destruct (speaking_line_shown blank p Hp) as (Hb & _); [simpl; lia|].
    now rewrite Hb.
  - eexists. split; [exact (callback_partial_empty c r r1 r2 partial_result Ha Hr Ht)|].
    rewrite stdout_of_feed_only. repeat split.
Qed.

End CallbackFacts.

(** ** The life of the process *)

Section LifecycleFacts.
Import PyStr.
Context {R : Type} `{Recognizer R}.

Implicit Types (env : @Env R) (g : @Globals R) (r : R).

(** *** The wait loop *)

Lemma callback_events_in_loop (evs : list Event) :
  forallb is_callback_event evs = true -> forallb is_loop_event evs = true.
Proof.
  intros Hc. apply forallb_forall. intros e He.
  pose proof (proj1 (forallb_forall _ _) Hc e He) as Hce.
  destruct e; simpl in *; congruence.
Qed.

Lemma sd_sleep_completed (blocks : list Chunk) r :
  exists r' evs,
    sd_sleep 1000 blocks false (mkGlobals (Some r))
    = (Returned tt, mkGlobals (Some r'), ESleep 1000 :: evs)
    /\ forallb is_callback_event evs = true.
Proof.
  destruct (deliver_all_completes blocks r) as (r' & evs & E & Hev).
  exists r', evs. split; [|exact Hev].
  unfold sd_sleep. py_run. rewrite E. simpl. now rewrite app_nil_r.
Qed.

Lemma sd_sleep_interrupted (blocks : list Chunk) r :
  exists r' evs,
    sd_sleep 1000 blocks true (mkGlobals (Some r))
    = (Raised KeyboardInterrupt, mkGlobals (Some r'), ESleep 1000 :: evs)
    /\ forallb is_callback_event evs = true.
Proof.
  destruct (deliver_all_completes blocks r) as (r' & evs & E & Hev).
  exists r', evs. split; [|exact Hev].
  unfold sd_sleep. py_run. rewrite E. simpl. now rewrite app_nil_r.
Qed.

Lemma count_events_app (f : Event -> bool) (a b : list Event) :
  count_events f (a ++ b) = count_events f a + count_events f b.
Proof. induction a as [|e a IH]; simpl; [reflexivity | rewrite IH; lia]. Qed.

(** Events of one class counted by a test that rejects the class. *)
Lemma count_events_none (f cls : Event -> bool) (evs : list Event) :
  (forall e, cls e = true -> f e = false) ->
  forallb cls evs = true -> count_events f evs = 0.
Proof.
  intros Hcls. induction evs as [|e evs IH]; simpl; [reflexivity|].
  intros Hall. apply andb_prop in Hall as [He Hall].
  now rewrite (Hcls e He), (IH Hall).
Qed.

Lemma callback_event_not_sleep (e : Event) : is_callback_event e = true -> is_sleep e = false.
Proof. destruct e; simpl; congruence. Qed.

Lemma loop_event_not_close (e : Event) : is_loop_event e = true -> is_close e = false.
Proof. destruct e; simpl; congruence. Qed.

Lemma loop_event_not_fault (e : Event) : is_loop_event e = true -> is_fault e = false.
Proof. destruct e; simpl; congruence. Qed.

Lemma loop_event_not_stream (e : Event) : is_loop_event e = true -> is_stream_event e = false.
Proof. destruct e; simpl; congruence. Qed.

(** The loop ends by the interrupt, after one sleep more than the completed
    ones, with the decoder still in place and only loop events emitted. *)
Lemma wait_loop_interrupted (completed : list (list Chunk)) (last : list Chunk) :
  forall r, exists r' evs,
    wait_loop completed last (mkGlobals (Some r))
    = (Raised KeyboardInterrupt, mkGlobals (Some r'), evs)
    /\ forallb is_loop_event evs = true
    /\ count_events is_sleep evs = S (length completed).
Proof.
  induction completed as [|blocks rest IH]; intros r.
  - destruct (sd_sleep_interrupted last r) as (r' & evs & E & Hev).
    exists r', (ESleep 1000 :: evs). split; [exact E|]. split.
    + simpl. now apply callback_events_in_loop.
    + simpl. now rewrite (count_events_none _ _ _ callback_event_not_sleep Hev).
  - destruct (sd_sleep_completed blocks r) as (r1 & evs1 & E1 & Hev1).
    destruct (IH r1) as (r' & evs & E & Hev & Hn).
    exists r', ((ESleep 1000 :: evs1) ++ evs). split; [|split].
    + simpl. py_run. fold (sd_sleep 1000 blocks false). rewrite E1, E. reflexivity.
    + simpl. rewrite forallb_app, Hev. now rewrite (callback_events_in_loop _ Hev1).
    + rewrite count_events_app, Hn. simpl.
      now rewrite (count_events_none _ _ _ callback_event_not_sleep Hev1).
Qed.

(** *** The paths through [main] *)

Lemma main_model_missing env g :
  MODEL_PATH ∉ model_dirs env ->
  main env g
  = (Returned tt, g,
     banner ++ [EModelLoad MODEL_PATH] ++ load_failure "Failed to create a model").
Proof.
  intros Hm. py_main. rewrite (bool_decide_eq_false_2 _ Hm). reflexivity.
Qed.

Lemma main_recognizer_fails env g :
  MODEL_PATH ∈ model_dirs env ->
  recognizer_new env MODEL_PATH SAMPLE_RATE = None ->
  main env g
  = (Returned tt, g,
     banner ++ [EModelLoad MODEL_PATH; ERecognizerNew SAMPLE_RATE]
     ++ load_failure "Failed to create a recognizer").
Proof.
  intros Hm Hr. py_main. rewrite (bool_decide_eq_true_2 _ Hm), Hr. reflexivity.
Qed.

Lemma main_device_fails env g r msg :
  MODEL_PATH ∈ model_dirs env ->
  recognizer_new env MODEL_PATH SAMPLE_RATE = Some r ->
  device_error env = Some msg ->
  main env g
  = (Returned tt, mkState (Some r) (stream_aborted g),
     banner ++ model_loaded
     ++ [EStreamOpen stream_config] ++ stream_failure msg).
Proof.
  intros Hm Hr Hd. py_main. rewrite (bool_decide_eq_true_2 _ Hm), Hr, Hd. reflexivity.
Qed.

Lemma main_start_fails env g r msg :
  MODEL_PATH ∈ model_dirs env ->
  recognizer_new env MODEL_PATH SAMPLE_RATE = Some r ->
  device_error env = None ->
  start_error env = Some msg ->
  main env g
  = (Raised (LibraryError msg), mkState (Some r) (stream_aborted g),
     banner ++ model_loaded ++ [EStreamOpen stream_config; EStreamStart]).
Proof.
  intros Hm Hr Hd Hs. py_main. rewrite (bool_decide_eq_true_2 _ Hm), Hr, Hd, Hs. reflexivity.
Qed.

(** The run that reaches the wait loop: the events of the blocks that arrive
    at once follow the start of the stream, and the loop's events sit between
    the prompt and the stop and close of the stream. *)
Lemma main_running env r r1 r' early_evs loop_evs :
  MODEL_PATH ∈ model_dirs env ->
  recognizer_new env MODEL_PATH SAMPLE_RATE = Some r ->
  device_error env = None ->
  start_error env = None ->
  deliver_all (early_blocks env) (mkGlobals (Some r))
  = (Returned tt, mkGlobals (Some r1), early_evs) ->
  wait_loop (ticks env) (last_tick env) (mkGlobals (Some r1))
  = (Raised KeyboardInterrupt, mkGlobals (Some r'), loop_evs) ->
  main env (mkGlobals None)
  = (Raised KeyboardInterrupt, mkGlobals (Some r'),
     banner ++ model_loaded
     ++ [EStreamOpen stream_config; EStreamStart] ++ early_evs
     ++ [EPrint Stdout "[Listening... Speak now]" ""; EFlush]
     ++ loop_evs ++ [EStreamStop; EStreamClose]).
Proof.
  intros Hm Hr Hd Hs Hearly Hloop. py_main.
  rewrite (bool_decide_eq_true_2 _ Hm), Hr, Hd, Hs. py_run.
  rewrite Hearly. py_run. rewrite Hloop.
  cbn [app]. rewrite <- ?app_assoc. reflexivity.
Qed.

(** *** The module body *)

Lemma module_body_imported env g :
  imports_ok env ->
  module_body env g
  = (let '(o, g', evs) := main env g in (o, g', imports_done ++ evs)).
Proof.
  intros (Hsd & Hnp & Hv & Hnames).
  unfold module_body, import_, from_vosk_import, SetLogLevel, try_except. py_run.
  rewrite (bool_decide_eq_true_2 _ Hsd), (bool_decide_eq_true_2 _ Hnp),
    (bool_decide_eq_true_2 _ Hv), (bool_decide_eq_true_2 _ Hnames).
  destruct (main env g) as [[o g'] evs]. reflexivity.
Qed.

(** When an import fails the script ends with status 1 before [main]: only
    imports, prints and the interpreter's report happen. *)
Lemma run_not_imported env :
  ~ imports_ok env ->
  exists evs,
    run_program env = (Exit 1, evs)
    /\ forallb is_startup_event evs = true.
Proof.
  intros Hno. unfold run_program, module_body, import_, from_vosk_import, SetLogLevel,
    try_except, sys_exit. py_run.
  destruct (bool_decide ("sounddevice" ∈ installed env)) eqn:Hsd;
    [|eexists; split; reflexivity].
  destruct (bool_decide ("numpy" ∈ installed env)) eqn:Hnp;
    [|eexists; split; reflexivity].
  destruct (bool_decide ("vosk" ∈ installed env)) eqn:Hv;
    [|eexists; split; reflexivity].
  destruct (bool_decide (Forall (fun n => n ∈ vosk_names env)
                           ["Model"; "KaldiRecognizer"; "SetLogLevel"])) eqn:Hnames;
    [|eexists; split; reflexivity].
  exfalso. apply Hno. unfold imports_ok.
  apply bool_decide_eq_true_1 in Hsd, Hnp, Hv, Hnames. auto.
Qed.

Lemma imports_ok_or_not env : imports_ok env \/ ~ imports_ok env.
Proof.
  unfold imports_ok.
  destruct (decide ("sounddevice" ∈ installed env /\ "numpy" ∈ installed env
                    /\ "vosk" ∈ installed env
                    /\ Forall (fun n => n ∈ vosk_names env)
                         ["Model"; "KaldiRecognizer"; "SetLogLevel"])); auto.
Qed.

Lemma in_forallb (cls : Event -> bool) (evs : list Event) (e : Event) :
  forallb cls evs = true -> In e evs -> cls e = true.
Proof. intros Hall He. exact (proj1 (forallb_forall cls evs) Hall e He). Qed.

(** The run of a script whose imports succeed, read off the result of [main]. *)
Lemma run_program_imported env o g' evs :
  imports_ok env ->
  main env (mkGlobals None) = (o, g', evs) ->
  run_program env = interpreter_exit (o, g', imports_done ++ evs).
Proof.
  intros Hi Hm. unfold run_program. now rewrite (module_body_imported env _ Hi), Hm.
Qed.

(** The handler of the import block does its work when it is reached: vosk
    imports but lacks one of the three names. *)
Lemma vosk_names_missing_reported env :
  "sounddevice" ∈ installed env -> "numpy" ∈ installed env -> "vosk" ∈ installed env ->
  ~ Forall (fun n => n ∈ vosk_names env) ["Model"; "KaldiRecognizer"; "SetLogLevel"] ->
  run_program env
  = (Exit 1,
     [EImport "sounddevice"; EImport "numpy"; EImport "vosk"; EImport "vosk";
      EPrint Stdout "FATAL ERROR: The 'vosk' package could not be imported." lf;
      EPrint Stdout "Please run: pip install vosk" lf]).
Proof.
  intros Hsd Hnp Hv Hnames. py_main.
  rewrite (bool_decide_eq_true_2 _ Hsd), (bool_decide_eq_true_2 _ Hnp),
    (bool_decide_eq_true_2 _ Hv), (bool_decide_eq_false_2 _ Hnames).
  reflexivity.
Qed.

(** *** The claims about the life of the process *)

(** C3: when the model directory is missing the script prints the fatal
    error with the model path, then [main] returns and the process ends with
    status 0. *)
Theorem C3_model_missing_message_and_status env :
  imports_ok env ->
  MODEL_PATH ∉ model_dirs env ->
  run_program env
  = (Exit 0,
     imports_done ++ banner ++ [EModelLoad MODEL_PATH]
     ++ load_failure "Failed to create a model")
  /\ In (EPrint Stdout
           (lf +:+ "FATAL ERROR: Could not load Vosk model from '"
            +:+ "models/vosk-model-en-us-0.42-gigaspeech" +:+ "'.") lf)
        (snd (run_program env)).
Proof.
  intros Hi Hm.
  assert (run_program env
          = (Exit 0, imports_done ++ banner ++ [EModelLoad MODEL_PATH]
                     ++ load_failure "Failed to create a model")) as E.
  { rewrite (run_program_imported env _ _ _ Hi (main_model_missing env _ Hm)).
    reflexivity. }
  split; [exact E|]. rewrite E. simpl. tauto.
Qed.

(** C4: when the model directory is missing the process exits and no stream
    call (open, start, stop, close) is among the events of the run. *)
Theorem C4_model_missing_no_stream env :
  MODEL_PATH ∉ model_dirs env ->
  (exists code, fst (run_program env) = Exit code)
  /\ (forall cfg, ~ In (EStreamOpen cfg) (snd (run_program env)))
  /\ count_events is_stream_event (snd (run_program env)) = 0.
Proof.
  intros Hm.
  destruct (imports_ok_or_not env) as [Hi|Hno].
  - rewrite (run_program_imported env _ _ _ Hi (main_model_missing env _ Hm)).
    split; [now exists 0%Z|]. split; [|reflexivity].
    intros cfg Hin. simpl in Hin.
    repeat (destruct Hin as [Hin|Hin]; [discriminate Hin|]). exact Hin.
  - destruct (run_not_imported env Hno) as (evs & E & Hev). rewrite E.
    split; [now exists 1%Z|]. split.
    + intros cfg Hin. simpl in Hin. now apply (in_forallb _ _ _ Hev) in Hin.
    + simpl. apply (count_events_none _ is_startup_event); [|exact Hev].
      intros e. destruct e; simpl; congruence.
Qed.

(** C5: when the vosk package is not installed the bare import statement
    raises before the guarded block: the run ends with status 1 and the
    interpreter's report, and nothing is printed on stdout. *)
Theorem C5_vosk_missing_uncaught env :
  "sounddevice" ∈ installed env -> "numpy" ∈ installed env ->
  "vosk" ∉ installed env ->
  run_program env
  = (Exit 1,
     [EImport "sounddevice"; EImport "numpy"; EImport "vosk";
      ETraceback (ModuleNotFoundError "No module named 'vosk'")])
  /\ output Stdout (snd (run_program env)) = "".
Proof.
  intros Hsd Hnp Hv.
  assert (run_program env
          = (Exit 1, [EImport "sounddevice"; EImport "numpy"; EImport "vosk";
                      ETraceback (ModuleNotFoundError "No module named 'vosk'")])) as E.
  { py_main.
    rewrite (bool_decide_eq_true_2 _ Hsd), (bool_decide_eq_true_2 _ Hnp),
      (bool_decide_eq_false_2 _ Hv). reflexivity. }
  split; [exact E|]. now rewrite E.
Qed.

(** C6: when the input stream does not open the script prints the fatal
    error and the driver's message, never starts the stream, keeps the
    decoder in the global, raises nothing, and [main] returns: the process
    ends with status 0. *)
Theorem C6_stream_open_failure_status env r msg :
  imports_ok env ->
  MODEL_PATH ∈ model_dirs env ->
  recognizer_new env MODEL_PATH SAMPLE_RATE = Some r ->
  device_error env = Some msg ->
  module_body env (mkGlobals None)
  = (Returned tt, mkGlobals (Some r),
     imports_done ++ banner ++ model_loaded
     ++ [EStreamOpen stream_config] ++ stream_failure msg)
  /\ run_program env
     = (Exit 0,
        imports_done ++ banner ++ model_loaded
        ++ [EStreamOpen stream_config] ++ stream_failure msg)
  /\ count_events (fun e => match e with
                            | EStreamStart | ESleep _ | ETraceback _ => true
                            | _ => false
                            end) (snd (run_program env)) = 0.
Proof.
  intros Hi Hm Hr Hd.
  pose proof (main_device_fails env (mkGlobals None) r msg Hm Hr Hd) as Emain.
  assert (run_program env
          = (Exit 0, imports_done ++ banner ++ model_loaded
                     ++ [EStreamOpen stream_config] ++ stream_failure msg)) as E.
  { rewrite (run_program_imported env _ _ _ Hi Emain). reflexivity. }
  split; [now rewrite (module_body_imported env _ Hi), Emain|].
  split; [exact E|]. now rewrite E.
Qed.

(** C8: in a run that reaches the wait loop, whatever the number of completed
    sleeps and the blocks delivered, the interrupt ends the loop after one
    more sleep call, the stream is stopped and closed at the end of the
    trace, and [stream.close()] is called exactly once in the whole run. *)
Theorem C8_interrupt_closes_stream_once env r :
  imports_ok env ->
  MODEL_PATH ∈ model_dirs env ->
  recognizer_new env MODEL_PATH SAMPLE_RATE = Some r ->
  device_error env = None ->
  start_error env = None ->
  fst (run_program env) = KilledBySigint
  /\ close_calls (snd (run_program env)) = 1
  /\ count_events is_sleep (snd (run_program env)) = S (length (ticks env))
  /\ exists before,
       snd (run_program env)
       = before ++ [EStreamStop; EStreamClose; ETraceback KeyboardInterrupt]
       /\ close_calls before = 0.
Proof.
  intros Hi Hm Hr Hd Hs.
  destruct (deliver_all_completes (early_blocks env) r)
    as (r1 & early_evs & Eearly & Hearly).
  destruct (wait_loop_interrupted (ticks env) (last_tick env) r1)
    as (r' & loop_evs & Eloop & Hloop & Hsleeps).
  rewrite (run_program_imported env _ _ _ Hi
             (main_running env r r1 r' early_evs loop_evs Hm Hr Hd Hs Eearly Eloop)).
  pose proof (count_events_none is_close _ _ loop_event_not_close Hloop) as Hc.
  pose proof (count_events_none is_close _ _ loop_event_not_close
                (callback_events_in_loop _ Hearly)) as Hce.
  pose proof (count_events_none is_sleep _ _ callback_event_not_sleep Hearly) as Hse.
  unfold close_calls. cbn [interpreter_exit fst snd].
  split; [reflexivity|].
  split.
  { rewrite !count_events_app, Hc, Hce. reflexivity. }
  split.
  { rewrite !count_events_app, Hsleeps, Hse. simpl. lia. }
  exists (imports_done ++ banner ++ model_loaded
          ++ [EStreamOpen stream_config; EStreamStart] ++ early_evs
          ++ [EPrint Stdout "[Listening... Speak now]" ""; EFlush] ++ loop_evs).
  split.
  - now rewrite <- !app_assoc.
  - rewrite !count_events_app, Hc, Hce. reflexivity.
Qed.

End LifecycleFacts.

(** ** The transcript line on screen *)

Section TranscriptOnScreen.
Import PyStr Terminal.

Lemma isspace_blank : isspace SP = true.
Proof. reflexivity. Qed.

(** Stripped text has no trailing blank to trim. *)
Lemma visible_rstrip (s : string) :
  visible (list_ascii_of_string (rstrip s)) = list_ascii_of_string (rstrip s).
Proof.
  induction s as [|c s IH]; [reflexivity|].
  simpl. destruct (rstrip s) as [|d r] eqn:Er.
  - destruct (isspace c) eqn:Ec; [reflexivity|]. simpl.
    destruct (Ascii.eqb_spec c SP) as [->|]; [|reflexivity].
    rewrite isspace_blank in Ec. discriminate Ec.
  - change (list_ascii_of_string (String c (String d r)))
      with (c :: list_ascii_of_string (String d r)).
    change (visible (c :: list_ascii_of_string (String d r)))
      with (match visible (list_ascii_of_string (String d r)) with
            | [] => if Ascii.eqb c SP then [] else [c]
            | v => c :: v
            end).
    rewrite IH. reflexivity.
Qed.

Lemma visible_app_kept (a b : list ascii) :
  visible b = b -> b <> [] -> visible (a ++ b) = a ++ b.
Proof.
  intros Hb Hne. induction a as [|c a IH]; simpl; [exact Hb|].
  rewrite IH. destruct (a ++ b) eqn:E; [|reflexivity].
  apply app_eq_nil in E as [_ E]. contradiction.
Qed.

(** On a screen whose current text is at most 80 columns wide, the cleared
    line and the printed transcript leave one more finished line, which reads
    "TRANSCRIPTION: " followed by the stripped text. *)
Lemma transcript_on_screen (scr : Screen) (raw : string) :
  truthy (strip raw) = true ->
  all_printing (strip raw) = true ->
  length (visible (line scr)) <= 80 ->
  exists l,
    permanent (feed scr (clear_line +:+ ("TRANSCRIPTION: " +:+ strip raw) +:+ lf))
    = permanent scr ++ [l]
    /\ trimmed l = "TRANSCRIPTION: " +:+ strip raw.
Proof.
  intros Ht Hp Hw.
  set (text := "TRANSCRIPTION: " +:+ strip raw).
  assert (all_printing text = true) as Htext.
  { unfold text. now rewrite all_printing_app, Hp. }
  unfold clear_line.
  rewrite !feed_app, (feed_cr scr).
  rewrite (feed_printing (spaces 80)) by apply all_printing_spaces.
  rewrite feed_cr. cbn [permanent line].
  rewrite (feed_printing text) by exact Htext.
  eexists. split; [reflexivity|].
  unfold trimmed. rewrite list_ascii_of_string_of_list_ascii. cbn [line].
  rewrite visible_app_blank.
  - unfold text. rewrite chars_app. unfold strip.
    rewrite visible_app_kept.
    + rewrite <- chars_app. apply string_of_list_ascii_of_string.
    + apply visible_rstrip.
    + unfold strip in Ht. destruct (rstrip (lstrip raw)); [discriminate Ht | discriminate].
  - apply Forall_drop. rewrite chars_spaces, length_spaces. apply Forall_app. split.
    + apply blank_repeat.
    + now apply blank_beyond_visible.
Qed.

End TranscriptOnScreen.

(** ** The claims on concrete runs *)

Section ConcreteRuns.
Import PyStr Terminal.

(** The scenario of a short utterance: silence, two partial hypotheses, the
    final text; the transcript is the one permanent line of the callback. *)
Example hello_world_transcript :
  printed_lines
    (snd (deliver_all [block no_flags; block no_flags; block no_flags; block no_flags]
            (mkGlobals (Some (mkScripted hello_script "")))))
  = ["TRANSCRIPTION: hello world"].
Proof. vm_compute. reflexivity. Qed.

Example hello_world_screen :
  let out := output Stdout
    (snd (deliver_all [block no_flags; block no_flags; block no_flags; block no_flags]
            (mkGlobals (Some (mkScripted hello_script ""))))) in
  map (fun l => string_of_list_ascii (visible (list_ascii_of_string l)))
      (permanent (feed blank out)) = ["TRANSCRIPTION: hello world"]
  /\ shown (feed blank out) = "[Listening... Speak now]".
Proof. vm_compute. split; reflexivity. Qed.

(** The callback runs from the start of the stream on: the blocks that
    arrive before the first sleep are fed before the prompt is printed. *)
Example callbacks_from_stream_start :
  exists before after,
    snd (run_program early_env)
    = before
      ++ [EStreamStart;
          EAcceptWaveform (tobytes (indata (block no_flags)));
          EAcceptWaveform (tobytes (indata (block no_flags)));
          EWrite (speaking_line "hello"); EFlush;
          EPrint Stdout "[Listening... Speak now]" ""; EFlush; ESleep 1000]
      ++ after.
Proof.
  eexists (firstn 14 (snd (run_program early_env))), _.
  vm_compute. reflexivity.
Qed.

(** The prompt covers 79 columns and the speaking line 80: after a speaking
    line of 80 columns or more, an empty final leaves the cell of column 79
    on screen behind the prompt. *)
Example prompt_leaves_column_79 :
  shown (feed (feed blank (speaking_line long_text)) listening_prompt)
  = "[Listening... Speak now]" +:+ spaces 55 +:+ "ar away]".
Proof. vm_compute. reflexivity. Qed.

Lemma C1_witness :
  printed_lines
    (snd (run_callback (block input_overflow)
            (mkGlobals (Some (mkScripted [(true, " hello world "); (false, "")] "hello")))))
  = ["TRANSCRIPTION: hello world"].
Proof.
  destruct (C1_final_text_prints_one_line
              [block no_flags] [block no_flags] (block input_overflow)
              (mkGlobals (Some (mkScripted
                 [(false, "hello"); (true, " hello world "); (false, "")] "")))
              (mkScripted [(true, " hello world "); (false, "")] "hello")
              (mkScripted [(false, "")] " hello world ")
              (mkScripted [(false, "")] "")
              {[ "text" := " hello world " ]}
              [EAcceptWaveform (tobytes (indata (block no_flags)));
               EWrite (speaking_line "hello"); EFlush])
    as (Hrun & Hlines & _).
  - vm_compute. reflexivity.
  - reflexivity.
  - reflexivity.
  - vm_compute. reflexivity.
  - rewrite Hrun. exact Hlines.
Defined.

Lemma C2_witness :
  shown (feed (feed blank (speaking_line long_text))
           (output Stdout
              (snd (run_callback (block no_flags)
                      (mkGlobals (Some (mkScripted [(false, longer_text)] "")))))))
  = speaking_text longer_text.
Proof.
  destruct (C2_partial_update_clean_when_covered
              (feed blank (speaking_line long_text)) (block no_flags)
              (mkScripted [(false, longer_text)] "")
              (mkScripted [] longer_text) (mkScripted [] longer_text)
              {[ "partial" := longer_text ]})
    as (evs & Hrun & _ & Hshown & _).
  - reflexivity.
  - reflexivity.
  - vm_compute. reflexivity.
  - intros _. vm_compute. lia.
  - rewrite Hrun. exact Hshown.
Defined.

(** C2 as stated fails in three ways: on an empty partial text nothing is
    written and the previous fragment stays; a previous line wider than 80
    columns keeps its tail behind a shorter speaking line; a carriage return
    inside the text shortens what the padding covers. *)
Lemma C2_counterexample :
  (fst (AcceptWaveform (mkScripted [(false, "")] "") (tobytes (indata (block no_flags)))) = false
   /\ ~ block_update_clean (feed blank (speaking_line "hello world"))
          (mkScripted [(false, "")] "") (block no_flags))
  /\ (fst (AcceptWaveform (mkScripted [(false, "hi")] "") (tobytes (indata (block no_flags)))) = false
      /\ ~ block_update_clean (feed blank (speaking_line long_text))
             (mkScripted [(false, "hi")] "") (block no_flags))
  /\ (fst (AcceptWaveform (mkScripted [(false, text_with_return)] "")
             (tobytes (indata (block no_flags)))) = false
      /\ length (visible (line (feed blank (speaking_line full_width_text)))) = 80
      /\ ~ block_update_clean (feed blank (speaking_line full_width_text))
             (mkScripted [(false, text_with_return)] "") (block no_flags)).
Proof.
  repeat split; try reflexivity; unfold block_update_clean, clean_update;
    intros E; vm_compute in E; discriminate E.
Qed.

Lemma C3_witness :
  imports_ok env_no_model /\ (MODEL_PATH ∉ model_dirs env_no_model)
  /\ fst (run_program env_no_model) = Exit 0.
Proof.
  assert (imports_ok env_no_model) as Hi by (unfold imports_ok; compute_done).
  assert (MODEL_PATH ∉ model_dirs env_no_model) as Hm by compute_done.
  split; [exact Hi|]. split; [exact Hm|].
  destruct (C3_model_missing_message_and_status env_no_model Hi Hm) as [E _].
  now rewrite E.
Defined.

Lemma C4_witness :
  (MODEL_PATH ∉ model_dirs env_no_model)
  /\ count_events is_stream_event (snd (run_program env_no_model)) = 0.
Proof.
  assert (MODEL_PATH ∉ model_dirs env_no_model) as Hm by compute_done.
  split; [exact Hm|].
  exact (proj2 (proj2 (C4_model_missing_no_stream env_no_model Hm))).
Defined.

Lemma C5_witness :
  ("vosk" ∉ installed env_no_vosk)
  /\ output Stdout (snd (run_program env_no_vosk)) = ""
  /\ fst (run_program env_no_vosk) = Exit 1.
Proof.
  assert ("sounddevice" ∈ installed env_no_vosk) as Hsd by compute_done.
  assert ("numpy" ∈ installed env_no_vosk) as Hnp by compute_done.
  assert ("vosk" ∉ installed env_no_vosk) as Hv by compute_done.
  split; [exact Hv|].
  destruct (C5_vosk_missing_uncaught env_no_vosk Hsd Hnp Hv) as [E Hout].
  split; [exact Hout | now rewrite E].
Defined.

Lemma C6_witness :
  device_error env_no_device = Some "Error querying device -1"
  /\ fst (run_program env_no_device) = Exit 0.
Proof.
  split; [reflexivity|].
  assert (imports_ok env_no_device) as Hi by (unfold imports_ok; compute_done).
  assert (MODEL_PATH ∈ model_dirs env_no_device) as Hm by compute_done.
  destruct (C6_stream_open_failure_status env_no_device (mkScripted [] "")
              "Error querying device -1" Hi Hm eq_refl eq_refl) as (_ & E & _).
  now rewrite E.
Defined.

Lemma C7_witness :
  flags_truthy input_overflow = true
  /\ output Stderr
       (snd (audio_callback [0; 258; -1]%Z 3 0 input_overflow
               (mkGlobals (Some (mkScripted hello_script "")))))
     = "SoundDevice Status: input overflow" +:+ lf.
Proof.
  split; [reflexivity|].
  destruct (C7_status_logged_block_processed [0; 258; -1]%Z 3 0 input_overflow
              (mkScripted hello_script "") eq_refl) as (r' & evs & E0 & E1).
  rewrite E1. vm_compute in E0. injection E0 as <- <-. reflexivity.
Defined.

Lemma C8_witness :
  close_calls
    (snd (run_program
            (sample_env hello_script
               [[block no_flags; block no_flags]; [block input_overflow]]
               [block no_flags]))) = 1.
Proof.
  set (env := sample_env hello_script
                [[block no_flags; block no_flags]; [block input_overflow]]
                [block no_flags]).
  assert (imports_ok env) as Hi by (unfold imports_ok; compute_done).
  assert (MODEL_PATH ∈ model_dirs env) as Hm by compute_done.
  exact (proj1 (proj2 (C8_interrupt_closes_stream_once env (mkScripted hello_script "")
                         Hi Hm eq_refl eq_refl eq_refl))).
Defined.

Lemma C9_witness :
  printed_lines
    (snd (run_callback (block no_flags) (mkGlobals (Some (mkScripted [(true, "   ")] "")))))
  = [].
Proof.
  destruct (C9_empty_final_redisplays_prompt (block no_flags)
              (mkScripted [(true, "   ")] "") (mkScripted [] "   ") (mkScripted [] "")
              {[ "text" := "   " ]})
    as (Hrun & Hlines & _).
  - reflexivity.
  - reflexivity.
  - vm_compute. reflexivity.
  - rewrite Hrun. exact Hlines.
Defined.

End ConcreteRuns.

(** ** Stripping *)

Section StripFacts.
Import PyStr.

Lemma lstrip_empty (s : string) : lstrip s = "" <-> all_space s = true.
Proof.
  induction s as [|c s IH]; simpl; [tauto|].
  destruct (isspace c); simpl; [exact IH|]. split; discriminate.
Qed.

Lemma rstrip_empty (s : string) : rstrip s = "" <-> all_space s = true.
Proof.
  induction s as [|c s IH]; simpl; [tauto|].
  destruct (rstrip s) as [|d r].
  - destruct (isspace c); simpl.
    + split; intros _; [now apply IH | reflexivity].
    + split; discriminate.
  - split; [discriminate|]. intros Hs. apply andb_prop in Hs as [_ Hs].
    apply IH in Hs. discriminate Hs.
Qed.

Lemma all_space_lstrip (s : string) : all_space (lstrip s) = all_space s.
Proof.
  induction s as [|c s IH]; simpl; [reflexivity|].
  destruct (isspace c) eqn:Ec; simpl; [exact IH | now rewrite Ec].
Qed.

Lemma strip_empty (s : string) : strip s = "" <-> all_space s = true.
Proof. unfold strip. now rewrite rstrip_empty, all_space_lstrip. Qed.

(** The head of a left-stripped string is not whitespace. *)
Lemma lstrip_head (s : string) (c : ascii) (rest : string) :
  lstrip s = String c rest -> isspace c = false.
Proof.
  induction s as [|d s IH]; simpl; [discriminate|].
  destruct (isspace d) eqn:Ed; [exact IH|]. intros E. injection E as <- _. exact Ed.
Qed.

Lemma lstrip_fixed (s : string) :
  match s with EmptyString => True | String c _ => isspace c = false end ->
  lstrip s = s.
Proof. destruct s as [|c s]; simpl; [reflexivity|]. now intros ->. Qed.

(** Right-stripping keeps the head of a string that starts with a
    non-whitespace character. *)
Lemma rstrip_head (c : ascii) (s : string) :
  isspace c = false -> exists rest, rstrip (String c s) = String c rest.
Proof.
  intros Hc. simpl. destruct (rstrip s); [rewrite Hc|]; eauto.
Qed.

Lemma rstrip_idempotent (s : string) : rstrip (rstrip s) = rstrip s.
Proof.
  induction s as [|c s IH]; [reflexivity|].
  simpl. destruct (rstrip s) as [|d r] eqn:Er.
  - destruct (isspace c) eqn:Ec; [reflexivity|]. simpl. now rewrite Ec.
  - change (rstrip (String c (String d r))) with
      (match rstrip (String d r) with
       | EmptyString => if isspace c then EmptyString else String c EmptyString
       | String a b => String c (String a b)
       end).
    now rewrite IH.
Qed.

Lemma lstrip_strip (s : string) : lstrip (strip s) = strip s.
Proof.
  unfold strip. apply lstrip_fixed.
  destruct (lstrip s) as [|c rest] eqn:El; [exact I|].
  destruct (rstrip_head c rest (lstrip_head s c rest El)) as [r ->].
  exact (lstrip_head s c rest El).
Qed.

(** Stripping is idempotent: stripped text has no whitespace left to
    strip at either end. *)
Lemma strip_idempotent (s : string) :
  strip (strip s) = strip s
  /\ lstrip (strip s) = strip s
  /\ rstrip (strip s) = strip s.
Proof.
  assert (rstrip (strip s) = strip s) as Hr by (unfold strip; apply rstrip_idempotent).
  split; [|split; [apply lstrip_strip | exact Hr]].
  unfold strip at 1. now rewrite lstrip_strip.
Qed.

End StripFacts.

(** ** More on the callback *)

Section CallbackCoverage.
Import PyStr Terminal.
Context {R : Type} `{Recognizer R}.

Implicit Types (c : Chunk) (r : R).

Lemma truthy_strip (raw : string) : truthy (strip raw) = negb (all_space raw).
Proof.
  destruct (all_space raw) eqn:Es.
  - apply strip_empty in Es. now rewrite Es.
  - destruct (strip raw) eqn:E; [|reflexivity].
    apply strip_empty in E. congruence.
Qed.

Lemma printed_of_transcript (st : CallbackFlags) (b : list Byte.byte) (t : string) :
  printed_lines
    (status_log st
     ++ [EAcceptWaveform b; EWrite clear_line; EPrint Stdout ("TRANSCRIPTION: " +:+ t) lf;
         EWrite listening_prompt; EFlush])
  = ["TRANSCRIPTION: " +:+ t].
Proof. now rewrite printed_lines_app, status_log_printed. Qed.

Lemma fed_app (a b : list Event) : fed (a ++ b) = fed a ++ fed b.
Proof.
  induction a as [|e a IH]; simpl; [reflexivity|].
  destruct e; simpl; now rewrite IH.
Qed.

Lemma status_log_fed (st : CallbackFlags) : fed (status_log st) = [].
Proof. unfold status_log. now destruct (flags_truthy st). Qed.

(** X1: a result without its key is an empty text: a final result
    without "text" only rewrites the prompt, a partial result without
    "partial" writes nothing. *)
Theorem missing_key_is_empty_text c r (final : bool) (r1 r2 : R)
    (d : gmap string string) :
  AcceptWaveform r (tobytes (indata c)) = (final, r1) ->
  (if final then Result r1 else PartialResult r1) = (d, r2) ->
  d !! (if final then "text" else "partial") = None ->
  run_callback c (mkGlobals (Some r))
  = (Returned tt, mkGlobals (Some r2),
     status_log (status c)
     ++ EAcceptWaveform (tobytes (indata c))
        :: (if final then [EWrite listening_prompt; EFlush] else [])).
Proof.
  intros Ha Hr Hd. destruct final.
  - apply (callback_final_empty c r r1 r2 d Ha Hr).
    unfold dict_get. now rewrite Hd.
  - apply (callback_partial_empty c r r1 r2 d Ha Hr).
    unfold dict_get. now rewrite Hd.
Qed.

(** X2: on a final result the callback prints a transcript line exactly when
    the text has a character that is not whitespace; the line carries the
    stripped text, which stripping again leaves as it is. *)
Theorem final_prints_iff_text c r (r1 r2 : R) (result : gmap string string) :
  AcceptWaveform r (tobytes (indata c)) = (true, r1) ->
  Result r1 = (result, r2) ->
  let raw := dict_get result "text" in
  printed_lines (snd (run_callback c (mkGlobals (Some r))))
  = (if all_space raw then [] else ["TRANSCRIPTION: " +:+ strip raw])
  /\ strip (strip raw) = strip raw
  /\ (strip raw = "" <-> all_space raw = true).
Proof.
  intros Ha Hr raw.
  split; [|split; [apply strip_idempotent | apply strip_empty]].
  pose proof (truthy_strip raw) as Ht.
  destruct (all_space raw); simpl in Ht.
  - rewrite (callback_final_empty c r r1 r2 result Ha Hr Ht). simpl.
    now rewrite printed_lines_app, status_log_printed.
  - rewrite (callback_final_text c r r1 r2 result Ha Hr Ht). simpl.
    apply printed_of_transcript.
Qed.

(** X3: a partial result never prints a permanent line; it writes the
    speaking line of the stripped text when the text has a character that is
    not whitespace, and nothing otherwise. *)
Theorem partial_writes_iff_text c r (r1 r2 : R) (partial_result : gmap string string) :
  AcceptWaveform r (tobytes (indata c)) = (false, r1) ->
  PartialResult r1 = (partial_result, r2) ->
  let raw := dict_get partial_result "partial" in
  printed_lines (snd (run_callback c (mkGlobals (Some r)))) = []
  /\ output Stdout (snd (run_callback c (mkGlobals (Some r))))
     = (if all_space raw then "" else speaking_line (strip raw)).
Proof.
  intros Ha Hr raw.
  pose proof (truthy_strip raw) as Ht.
  destruct (all_space raw); simpl in Ht.
  - rewrite (callback_partial_empty c r r1 r2 partial_result Ha Hr Ht). simpl.
    split; [now rewrite printed_lines_app, status_log_printed|].
    apply stdout_of_feed_only.
  - rewrite (callback_partial_text c r r1 r2 partial_result Ha Hr Ht). simpl.
    split; [now rewrite printed_lines_app, status_log_printed|].
    apply stdout_of_write.
Qed.

(** What one call feeds and prints, whatever the decoder answers. *)
Lemma callback_summary c r :
  exists r' evs,
    run_callback c (mkGlobals (Some r)) = (Returned tt, mkGlobals (Some r'), evs)
    /\ fed evs = [tobytes (indata c)]
    /\ (printed_lines evs = []
        \/ exists t, printed_lines evs = ["TRANSCRIPTION: " +:+ t])
    /\ (output Stdout evs = ""
        \/ exists s, output Stdout evs = s +:+ cr).
Proof.
  destruct (AcceptWaveform r (tobytes (indata c))) as [final r1] eqn:Ha.
  destruct final.
  - destruct (Result r1) as [result r2] eqn:Hr.
    destruct (truthy (strip (dict_get result "text"))) eqn:Ht.
    + eexists _, _. split; [exact (callback_final_text c r r1 r2 result Ha Hr Ht)|].
      split; [now rewrite fed_app, status_log_fed|].
      split; [right; eexists; apply printed_of_transcript|].
      right. rewrite stdout_of_transcript. unfold listening_prompt.
      eexists. rewrite <- !string_app_assoc. reflexivity.
    + eexists _, _. split; [exact (callback_final_empty c r r1 r2 result Ha Hr Ht)|].
      split; [now rewrite fed_app, status_log_fed|].
      split; [left; now rewrite printed_lines_app, status_log_printed|].
      right. rewrite stdout_of_write. unfold listening_prompt. eauto.
  - destruct (PartialResult r1) as [result r2] eqn:Hr.
    destruct (truthy (strip (dict_get result "partial"))) eqn:Ht.
    + eexists _, _. split; [exact (callback_partial_text c r r1 r2 result Ha Hr Ht)|].
      split; [now rewrite fed_app, status_log_fed|].
      split; [left; now rewrite printed_lines_app, status_log_printed|].
      right. rewrite stdout_of_write. unfold speaking_line.
      eexists. rewrite <- string_app_assoc. reflexivity.
    + eexists _, _. split; [exact (callback_partial_empty c r r1 r2 result Ha Hr Ht)|].
      split; [now rewrite fed_app, status_log_fed|].
      split; [left; now rewrite printed_lines_app, status_log_printed|].
      left. apply stdout_of_feed_only.
Qed.

Lemma feed_ends_cr (scr : Screen) (s : string) : col (feed scr (s +:+ cr)) = 0.
Proof. now rewrite feed_app, feed_cr. Qed.

(** X4: every write of the callback ends with a carriage return: a cursor at
    column 0 before a call is at column 0 after it, whatever the decoder
    answers and whatever characters the text holds. *)
Theorem callback_keeps_cursor_home (scr : Screen) c r :
  col scr = 0 ->
  col (feed scr (output Stdout (snd (run_callback c (mkGlobals (Some r)))))) = 0.
Proof.
  intros Hcol.
  destruct (callback_summary c r) as (r' & evs & E & _ & _ & [Hout|[s Hout]]);
    rewrite E; simpl snd; rewrite Hout.
  - exact Hcol.
  - apply feed_ends_cr.
Qed.

Lemma transcript_prefix (t : string) :
  String.prefix "TRANSCRIPTION: " ("TRANSCRIPTION: " +:+ t) = true.
Proof. vm_compute. now destruct t. Qed.

(** The blocks of a sequence, summed up. *)
Lemma deliver_all_summary (cs : list Chunk) : forall r,
  exists r' evs,
    deliver_all cs (mkGlobals (Some r)) = (Returned tt, mkGlobals (Some r'), evs)
    /\ fed evs = map (fun c => tobytes (indata c)) cs
    /\ Forall (fun l => String.prefix "TRANSCRIPTION: " l = true) (printed_lines evs)
    /\ length (printed_lines evs) <= length cs.
Proof.
  induction cs as [|c cs IH]; intros r.
  - exists r, []. repeat split; simpl; auto.
  - destruct (callback_summary c r) as (r1 & evs1 & E1 & Hfed & Hlines & _).
    destruct (IH r1) as (r2 & evs2 & E2 & Hfed2 & Hall2 & Hlen2).
    exists r2, (evs1 ++ evs2). split.
    + rewrite (deliver_all_cons _ _ _ _ _ (deliver_returned _ _ _ _ E1)), E2. reflexivity.
    + rewrite fed_app, Hfed, Hfed2, printed_lines_app, length_app.
      split; [reflexivity|]. simpl length.
      destruct Hlines as [->|[t ->]]; simpl.
      * split; [exact Hall2 | lia].
      * split; [|lia]. constructor; [apply transcript_prefix | exact Hall2].
Qed.

(** X5: the blocks of a sequence are fed to the decoder one by one in arrival
    order, each as the bytes of its samples, none skipped and none twice. *)
Theorem blocks_fed_in_order (cs : list Chunk) r :
  fed (snd (deliver_all cs (mkGlobals (Some r)))) = map (fun c => tobytes (indata c)) cs.
Proof.
  destruct (deliver_all_summary cs r) as (r' & evs & E & Hfed & _).
  now rewrite E.
Qed.

(** X6: over any sequence of blocks the only permanent lines are transcript
    lines, at most one for each block. *)
Theorem only_transcripts_are_printed (cs : list Chunk) r :
  Forall (fun l => String.prefix "TRANSCRIPTION: " l = true)
         (printed_lines (snd (deliver_all cs (mkGlobals (Some r)))))
  /\ length (printed_lines (snd (deliver_all cs (mkGlobals (Some r))))) <= length cs.
Proof.
  destruct (deliver_all_summary cs r) as (r' & evs & E & _ & Hall & Hlen).
  now rewrite E.
Qed.

End CallbackCoverage.

(** ** More on what the screen shows *)

Section ScreenCoverage.
Import PyStr Terminal.

(** X7: the speaking line is written whole, never cut at 80 columns: it
    takes the first max(80, 14 + len p) cells of the line and leaves every
    cell beyond them as it was, with the cursor back at column 0. *)
Theorem speaking_line_overwrites (scr : Screen) (p : string) :
  all_printing p = true ->
  feed scr (speaking_line p)
  = mkScreen (permanent scr)
      (list_ascii_of_string (speaking_text p)
       ++ repeat SP (80 - (14 + String.length p))
       ++ drop (Nat.max 80 (14 + String.length p)) (line scr))
      0.
Proof.
  intros Hp.
  assert (all_printing (ljust 80 (speaking_text p)) = true) as Hall.
  { apply all_printing_ljust. unfold speaking_text. now rewrite !all_printing_app, Hp. }
  assert (String.length (speaking_text p) = 14 + String.length p) as Hlen.
  { unfold speaking_text. rewrite !length_append. simpl. lia. }
  unfold speaking_line.
  rewrite feed_app, (feed_cr scr), feed_app, (feed_printing _ _ _ Hall), feed_cr.
  cbn [permanent line]. f_equal.
  rewrite length_ljust, Hlen. unfold ljust.
  now rewrite chars_app, chars_spaces, Hlen, <- app_assoc.
Qed.

(** X8: the prompt is padded to 80 characters with its carriage return
    counted in: it takes cells 0 to 78 and leaves every cell from column 79
    on as it was. *)
Theorem prompt_overwrites_79_columns (scr : Screen) :
  feed scr listening_prompt
  = mkScreen (permanent scr)
      (list_ascii_of_string "[Listening... Speak now]" ++ repeat SP 55
       ++ drop 79 (line scr))
      0.
Proof.
  set (text := "[Listening... Speak now]" +:+ spaces 55).
  change listening_prompt with (cr +:+ text +:+ cr).
  rewrite feed_app, (feed_cr scr), feed_app.
  rewrite feed_printing by reflexivity.
  rewrite feed_cr. reflexivity.
Qed.

(** Finished lines are never taken back. *)
Lemma feed_permanent_mono (s : string) : forall scr,
  length (permanent scr) <= length (permanent (feed scr s)).
Proof.
  induction s as [|a s IH]; intros scr; simpl; [lia|].
  etransitivity; [|apply IH]. unfold put.
  destruct (Ascii.eqb a CR); [simpl; lia|].
  destruct (Ascii.eqb a LF); simpl; [rewrite length_app; simpl; lia | lia].
Qed.

Lemma feed_ends_lf (scr : Screen) (s : string) :
  line (feed scr (s +:+ lf)) = [] /\ col (feed scr (s +:+ lf)) = 0.
Proof. rewrite feed_app. split; reflexivity. Qed.

(** X9: after a transcript the prompt stands alone on a fresh line: whatever
    the screen held and whatever the text is, the current line is the prompt
    and 55 blanks, and the finished lines have grown. *)
Theorem prompt_after_transcript_on_fresh_line (scr : Screen) (t : string) :
  let scr' := feed scr (clear_line +:+ (("TRANSCRIPTION: " +:+ t) +:+ lf)
                        +:+ listening_prompt) in
  line scr' = list_ascii_of_string "[Listening... Speak now]" ++ repeat SP 55
  /\ col scr' = 0
  /\ length (permanent scr) < length (permanent scr').
Proof.
  intros scr'. subst scr'.
  rewrite <- (string_app_assoc clear_line (("TRANSCRIPTION: " +:+ t) +:+ lf) listening_prompt).
  rewrite feed_app.
  rewrite <- (string_app_assoc clear_line ("TRANSCRIPTION: " +:+ t) lf).
  set (mid := feed scr ((clear_line +:+ "TRANSCRIPTION: " +:+ t) +:+ lf)).
  destruct (feed_ends_lf scr (clear_line +:+ "TRANSCRIPTION: " +:+ t)) as [Hl Hc].
  fold mid in Hl, Hc.
  rewrite prompt_overwrites_79_columns, Hl. cbn [line col permanent].
  rewrite drop_nil, app_nil_r. split; [reflexivity|]. split; [reflexivity|].
  unfold mid. rewrite feed_app.
  set (before := feed scr (clear_line +:+ "TRANSCRIPTION: " +:+ t)).
  pose proof (feed_permanent_mono (clear_line +:+ "TRANSCRIPTION: " +:+ t) scr) as Hmono.
  fold before in Hmono.
  change (feed before lf) with (put before LF). unfold put. simpl.
  rewrite length_app. simpl. lia.
Qed.

End ScreenCoverage.

(** ** The bytes of a block *)

Section BlockBytes.
Local Open Scope Z_scope.

Lemma to_N_byte_of_Z (z : Z) : Z.of_N (Byte.to_N (byte_of_Z z)) = z mod 256.
Proof.
  unfold byte_of_Z.
  assert (0 <= z mod 256 < 256) as Hb by (apply Z.mod_pos_bound; lia).
  destruct (Byte.of_N (Z.to_N (z mod 256))) as [b|] eqn:E.
  - apply Byte.to_of_N in E. rewrite E. lia.
  - apply Byte.of_N_None_iff in E. lia.
Qed.

Lemma int16_round_trip (x : Z) :
  -32768 <= x <= 32767 ->
  int16_of_bytes (byte_of_Z (x mod 65536)) (byte_of_Z (x mod 65536 / 256)) = x.
Proof.
  intros Hx. unfold int16_of_bytes. rewrite !to_N_byte_of_Z.
  assert (0 <= x mod 65536 < 65536) as Hu by (apply Z.mod_pos_bound; lia).
  assert (x mod 65536 / 256 < 256) as Hq by (apply Z.div_lt_upper_bound; lia).
  assert (0 <= x mod 65536 / 256) as Hq0 by (apply Z.div_pos; lia).
  rewrite (Z.mod_small (x mod 65536 / 256) 256) by lia.
  replace (x mod 65536 mod 256 + 256 * (x mod 65536 / 256)) with (x mod 65536)
    by (rewrite (Z.div_mod (x mod 65536) 256) at 1; lia).
  assert (x mod 65536 = if x <? 0 then x + 65536 else x) as Hmod.
  { destruct (Z.ltb_spec x 0).
    - symmetry. apply (Z.mod_unique x 65536 (-1)); lia.
    - apply Z.mod_small; lia. }
  rewrite Hmod.
  destruct (Z.ltb_spec x 0);
    match goal with
    | |- context [?a <? 32768] => destruct (Z.ltb_spec a 32768)
    end; lia.
Qed.

(** X10: a block of n int16 samples is fed as 2n bytes, low byte first, and
    reading the bytes back as int16 gives the samples again. *)
Theorem tobytes_round_trip (samples : list Z) :
  Forall (fun x => -32768 <= x <= 32767) samples ->
  length (tobytes samples) = (2 * length samples)%nat
  /\ frombytes (tobytes samples) = samples.
Proof.
  induction 1 as [|x samples Hx _ [IHlen IHrt]]; [split; reflexivity|].
  split.
  - simpl. rewrite IHlen. lia.
  - change (tobytes (x :: samples))
      with (byte_of_Z (x mod 65536) :: byte_of_Z (x mod 65536 / 256) :: tobytes samples).
    cbn [frombytes]. now rewrite IHrt, int16_round_trip.
Qed.

End BlockBytes.

(** ** More on the life of the process *)

Section LifecycleCoverage.
Import PyStr.
Context {R : Type} `{Recognizer R}.

Implicit Types (env : @Env R) (g : @Globals R) (r : R).

(** The six ways a run can go, each with its trace. *)
Lemma run_cases env :
  (~ imports_ok env
   /\ exists evs, run_program env = (Exit 1, evs) /\ forallb is_startup_event evs = true)
  \/ (imports_ok env /\ (MODEL_PATH ∉ model_dirs env)
      /\ run_program env
         = (Exit 0, imports_done ++ banner ++ [EModelLoad MODEL_PATH]
                    ++ load_failure "Failed to create a model"))
  \/ (imports_ok env /\ MODEL_PATH ∈ model_dirs env
      /\ recognizer_new env MODEL_PATH SAMPLE_RATE = None
      /\ run_program env
         = (Exit 0, imports_done ++ banner ++ [EModelLoad MODEL_PATH; ERecognizerNew SAMPLE_RATE]
                    ++ load_failure "Failed to create a recognizer"))
  \/ (exists r msg,
        imports_ok env /\ MODEL_PATH ∈ model_dirs env
        /\ recognizer_new env MODEL_PATH SAMPLE_RATE = Some r
        /\ device_error env = Some msg
        /\ run_program env
           = (Exit 0, imports_done ++ banner ++ model_loaded
                      ++ [EStreamOpen stream_config] ++ stream_failure msg))
  \/ (exists r msg,
        imports_ok env /\ MODEL_PATH ∈ model_dirs env
        /\ recognizer_new env MODEL_PATH SAMPLE_RATE = Some r
        /\ device_error env = None /\ start_error env = Some msg
        /\ run_program env
           = (Exit 1, imports_done ++ banner ++ model_loaded
                      ++ [EStreamOpen stream_config; EStreamStart;
                          ETraceback (LibraryError msg)]))
  \/ (exists r r1 r' early_evs loop_evs,
        imports_ok env /\ MODEL_PATH ∈ model_dirs env
        /\ recognizer_new env MODEL_PATH SAMPLE_RATE = Some r
        /\ device_error env = None /\ start_error env = None
        /\ deliver_all (early_blocks env) (mkGlobals (Some r))
           = (Returned tt, mkGlobals (Some r1), early_evs)
        /\ forallb is_loop_event early_evs = true
        /\ wait_loop (ticks env) (last_tick env) (mkGlobals (Some r1))
           = (Raised KeyboardInterrupt, mkGlobals (Some r'), loop_evs)
        /\ forallb is_loop_event loop_evs = true
        /\ run_program env
           = (KilledBySigint,
              imports_done ++ banner ++ model_loaded
              ++ [EStreamOpen stream_config; EStreamStart] ++ early_evs
              ++ [EPrint Stdout "[Listening... Speak now]" ""; EFlush]
              ++ loop_evs ++ [EStreamStop; EStreamClose; ETraceback KeyboardInterrupt])).
Proof.
  destruct (imports_ok_or_not env) as [Hi|Hno]; [|left; split; [exact Hno|]].
  2:{ destruct (run_not_imported env Hno) as (evs & E & Hev). eauto. }
  right.
  destruct (decide (MODEL_PATH ∈ model_dirs env)) as [Hm|Hm]; [|left].
  2:{ refine (conj Hi (conj Hm _)).
      now rewrite (run_program_imported env _ _ _ Hi (main_model_missing env _ Hm)). }
  right.
  destruct (recognizer_new env MODEL_PATH SAMPLE_RATE) as [r|] eqn:Hr; [|left].
  2:{ refine (conj Hi (conj Hm (conj eq_refl _))).
      now rewrite (run_program_imported env _ _ _ Hi (main_recognizer_fails env _ Hm Hr)). }
  right.
  destruct (device_error env) as [msg|] eqn:Hd; [left|].
  { exists r, msg. refine (conj Hi (conj Hm (conj eq_refl (conj eq_refl _)))).
    now rewrite (run_program_imported env _ _ _ Hi (main_device_fails env _ r msg Hm Hr Hd)). }
  right.
  destruct (start_error env) as [msg|] eqn:Hs; [left|].
  { exists r, msg. refine (conj Hi (conj Hm (conj eq_refl (conj eq_refl (conj eq_refl _))))).
    rewrite (run_program_imported env _ _ _ Hi (main_start_fails env _ r msg Hm Hr Hd Hs)).
    cbn [interpreter_exit]. now rewrite <- !app_assoc. }
  right.
  destruct (deliver_all_completes (early_blocks env) r)
    as (r1 & early_evs & Eearly & Hearly).
  apply callback_events_in_loop in Hearly.
  destruct (wait_loop_interrupted (ticks env) (last_tick env) r1)
    as (r' & loop_evs & Eloop & Hloop & _).
  exists r, r1, r', early_evs, loop_evs.
  refine (conj Hi (conj Hm (conj eq_refl (conj eq_refl (conj eq_refl
            (conj Eearly (conj Hearly (conj Eloop (conj Hloop _))))))))).
  rewrite (run_program_imported env _ _ _ Hi
             (main_running env r r1 r' early_evs loop_evs Hm Hr Hd Hs Eearly Eloop)).
  cbn [interpreter_exit]. now rewrite <- !app_assoc.
Qed.

(** X11: when vosk imports but lacks one of the three names, the guarded
    import block prints the fatal error and the pip command on stdout and
    exits with status 1, before [main] runs: no model is loaded. *)
Theorem import_guard_reports_missing_names env :
  "sounddevice" ∈ installed env -> "numpy" ∈ installed env -> "vosk" ∈ installed env ->
  ~ Forall (fun n => n ∈ vosk_names env) ["Model"; "KaldiRecognizer"; "SetLogLevel"] ->
  fst (run_program env) = Exit 1
  /\ output Stdout (snd (run_program env))
     = "FATAL ERROR: The 'vosk' package could not be imported." +:+ lf
       +:+ "Please run: pip install vosk" +:+ lf
  /\ output Stderr (snd (run_program env)) = ""
  /\ count_events (fun e => match e with
                            | EModelLoad _ | ETraceback _ | ESetLogLevel _ => true
                            | _ => false
                            end) (snd (run_program env)) = 0.
Proof.
  intros Hsd Hnp Hv Hnames.
  rewrite (vosk_names_missing_reported env Hsd Hnp Hv Hnames).
  repeat split; reflexivity.
Qed.

(** X12: when [KaldiRecognizer] raises, [main] handles it like a missing
    model: it prints the load error with the constructor's message, leaves
    the global None, opens no stream, and the process ends with status 0. *)
Theorem recognizer_failure_handled_as_load_failure env :
  imports_ok env ->
  MODEL_PATH ∈ model_dirs env ->
  recognizer_new env MODEL_PATH SAMPLE_RATE = None ->
  module_body env (mkGlobals None)
  = (Returned tt, mkGlobals None,
     imports_done ++ banner ++ [EModelLoad MODEL_PATH; ERecognizerNew SAMPLE_RATE]
     ++ load_failure "Failed to create a recognizer")
  /\ fst (run_program env) = Exit 0
  /\ count_events is_stream_event (snd (run_program env)) = 0.
Proof.
  intros Hi Hm Hr.
  pose proof (main_recognizer_fails env (mkGlobals None) Hm Hr) as Emain.
  split; [now rewrite (module_body_imported env _ Hi), Emain|].
  now rewrite (run_program_imported env _ _ _ Hi Emain).
Qed.

(** X13: when the stream opens but does not start, nothing catches the
    exception: the interpreter reports it and the status is 1; the opened
    stream is neither stopped nor closed, no prompt is printed and no sleep
    or callback happens. *)
Theorem start_failure_is_uncaught env r msg :
  imports_ok env ->
  MODEL_PATH ∈ model_dirs env ->
  recognizer_new env MODEL_PATH SAMPLE_RATE = Some r ->
  device_error env = None ->
  start_error env = Some msg ->
  run_program env
  = (Exit 1,
     imports_done ++ banner ++ model_loaded
     ++ [EStreamOpen stream_config; EStreamStart; ETraceback (LibraryError msg)])
  /\ close_calls (snd (run_program env)) = 0
  /\ count_events (fun e => is_stop e || is_sleep e || is_accept e)
       (snd (run_program env)) = 0.
Proof.
  intros Hi Hm Hr Hd Hs.
  assert (run_program env
          = (Exit 1, imports_done ++ banner ++ model_loaded
                     ++ [EStreamOpen stream_config; EStreamStart;
                         ETraceback (LibraryError msg)])) as E.
  { rewrite (run_program_imported env _ _ _ Hi
               (main_start_fails env _ r msg Hm Hr Hd Hs)).
    cbn [interpreter_exit]. now rewrite <- !app_assoc. }
  split; [exact E|]. now rewrite E.
Qed.

(** X14: in every run the stream is opened at most once, and when it is
    opened it is with 16000 Hz, one channel, int16 and blocks of 8000, after
    the imports, the banner, the model load and the decoder's construction. *)
Theorem stream_opened_once_as_configured env :
  count_events is_open (snd (run_program env)) = 0
  \/ exists rest,
       snd (run_program env)
       = imports_done ++ banner ++ model_loaded
         ++ EStreamOpen (mkStreamConfig 16000 1 "int16" 8000) :: rest
       /\ count_events is_open rest = 0.
Proof.
  destruct (run_cases env)
    as [(_ & evs & E & Hev)
       |[(_ & _ & E)
        |[(_ & _ & _ & E)
         |[(r & msg & _ & _ & _ & _ & E)
          |[(r & msg & _ & _ & _ & _ & _ & E)
           |(r & r1 & r' & early_evs & loop_evs
             & _ & _ & _ & _ & _ & _ & Hearly & _ & Hloop & E)]]]]];
    rewrite E; cbn [snd].
  - left. apply (count_events_none _ is_startup_event); [|exact Hev].
    intros e. destruct e; simpl; congruence.
  - left. reflexivity.
  - left. reflexivity.
  - right. eexists. split; [reflexivity|]. reflexivity.
  - right. eexists. split; [reflexivity|]. reflexivity.
  - right. eexists. split; [reflexivity|].
    change (count_events is_open
              ([EStreamStart] ++ early_evs
               ++ [EPrint Stdout "[Listening... Speak now]" ""; EFlush]
               ++ loop_evs ++ [EStreamStop; EStreamClose; ETraceback KeyboardInterrupt]) = 0).
    rewrite !count_events_app.
    rewrite (count_events_none is_open is_loop_event loop_evs),
      (count_events_none is_open is_loop_event early_evs);
      try assumption; try reflexivity; intros e; destruct e; simpl; congruence.
Qed.

(** X15: the way the process ends, read off the environment: killed by the
    interrupt exactly when the stream is ready and starts; status 0 exactly
    when the imports succeed and the stream is not ready (model, decoder or
    device failure); status 1 exactly when an import fails or the stream is
    ready and does not start. *)
Theorem termination_by_environment env :
  (fst (run_program env) = KilledBySigint <-> stream_ready env /\ start_error env = None)
  /\ (fst (run_program env) = Exit 0 <-> imports_ok env /\ ~ stream_ready env)
  /\ (fst (run_program env) = Exit 1
      <-> ~ imports_ok env \/ (stream_ready env /\ start_error env <> None)).
Proof.
  destruct (run_cases env)
    as [(Hno & evs & E & Hev)
       |[(Hi & Hm & E)
        |[(Hi & Hm & Hr & E)
         |[(r & msg & Hi & Hm & Hr & Hd & E)
          |[(r & msg & Hi & Hm & Hr & Hd & Hs & E)
           |(r & r1 & r' & early_evs & loop_evs
             & Hi & Hm & Hr & Hd & Hs & _ & _ & _ & _ & E)]]]]];
    rewrite E; cbn [fst].
  - assert (~ stream_ready env) as Hnr by (intros [Hi _]; contradiction).
    repeat apply conj; intros Hx; try discriminate Hx; try reflexivity; tauto.
  - assert (~ stream_ready env) as Hnr by (intros (_ & Hm' & _); contradiction).
    repeat apply conj; intros Hx; try discriminate Hx; try reflexivity; tauto.
  - assert (~ stream_ready env) as Hnr.
    { intros (_ & _ & [x Hx] & _). congruence. }
    repeat apply conj; intros Hx; try discriminate Hx; try reflexivity; tauto.
  - assert (~ stream_ready env) as Hnr.
    { intros (_ & _ & _ & Hd'). congruence. }
    repeat apply conj; intros Hx; try discriminate Hx; try reflexivity; tauto.
  - assert (stream_ready env) as Hready.
    { refine (conj Hi (conj Hm (conj _ Hd))). rewrite Hr. now exists r. }
    assert (start_error env <> None) as Hs' by congruence.
    repeat apply conj; intros Hx; try discriminate Hx; try reflexivity; tauto.
  - assert (stream_ready env) as Hready.
    { refine (conj Hi (conj Hm (conj _ Hd))). rewrite Hr. now exists r. }
    repeat apply conj; intros Hx; try discriminate Hx; try reflexivity; tauto.
Qed.

(** X16: [stream.close()] is called once when the run ends by the interrupt
    and never otherwise, each close follows one stop, and the stream is never
    started without having been opened.  In particular the stream that
    opens and does not start is not closed. *)
Theorem stream_closed_iff_interrupted env :
  close_calls (snd (run_program env))
  = match fst (run_program env) with KilledBySigint => 1 | Exit _ => 0 end
  /\ count_events is_stop (snd (run_program env)) = close_calls (snd (run_program env))
  /\ count_events is_start (snd (run_program env))
     <= count_events is_open (snd (run_program env)).
Proof.
  unfold close_calls.
  destruct (run_cases env)
    as [(_ & evs & E & Hev)
       |[(_ & _ & E)
        |[(_ & _ & _ & E)
         |[(r & msg & _ & _ & _ & _ & E)
          |[(r & msg & _ & _ & _ & _ & _ & E)
           |(r & r1 & r' & early_evs & loop_evs
             & _ & _ & _ & _ & _ & _ & Hearly & _ & Hloop & E)]]]]];
    rewrite E; cbn [fst snd].
  - rewrite !(count_events_none _ is_startup_event evs) by
      (exact Hev || (intros e; destruct e; simpl; congruence)).
    repeat split; lia.
  - repeat split; simpl; lia.
  - repeat split; simpl; lia.
  - repeat split; simpl; lia.
  - repeat split; simpl; lia.
  - rewrite !count_events_app.
    rewrite !(count_events_none _ is_loop_event loop_evs) by
      (exact Hloop || (intros e; destruct e; simpl; congruence)).
    rewrite !(count_events_none _ is_loop_event early_evs) by
      (exact Hearly || (intros e; destruct e; simpl; congruence)).
    repeat split; simpl; lia.
Qed.

(** The blocks fed during the wait loop. *)
Lemma wait_loop_fed (completed : list (list Chunk)) (last : list Chunk) : forall r,
  exists r' evs,
    wait_loop completed last (mkGlobals (Some r))
    = (Raised KeyboardInterrupt, mkGlobals (Some r'), evs)
    /\ fed evs = map (fun c => tobytes (indata c)) (concat completed ++ last).
Proof.
  induction completed as [|blocks rest IH]; intros r.
  - destruct (deliver_all_summary last r) as (r' & evs & E & Hfed & _).
    exists r', (ESleep 1000 :: evs). split.
    + simpl. unfold sd_sleep. py_run. rewrite E. simpl. now rewrite app_nil_r.
    + exact Hfed.
  - destruct (deliver_all_summary blocks r) as (r1 & evs1 & E1 & Hfed1 & _).
    destruct (IH r1) as (r' & evs & E & Hfed).
    exists r', ((ESleep 1000 :: evs1) ++ evs). split.
    + simpl. unfold sd_sleep. py_run. rewrite E1. py_run. rewrite E.
      simpl. now rewrite app_nil_r.
    + rewrite fed_app. simpl fed. rewrite Hfed1, Hfed.
      simpl concat. rewrite <- app_assoc. symmetry. apply map_app.
Qed.

(** X18: in a run that reaches the wait loop, every block the driver
    delivers before the interrupt, from the start of the stream on, is fed to
    the decoder, in delivery order, and nothing else is. *)
Theorem delivered_blocks_all_fed env r :
  imports_ok env ->
  MODEL_PATH ∈ model_dirs env ->
  recognizer_new env MODEL_PATH SAMPLE_RATE = Some r ->
  device_error env = None ->
  start_error env = None ->
  fed (snd (run_program env))
  = map (fun c => tobytes (indata c))
        (early_blocks env ++ concat (ticks env) ++ last_tick env).
Proof.
  intros Hi Hm Hr Hd Hs.
  destruct (deliver_all_summary (early_blocks env) r)
    as (r1 & early_evs & Eearly & Hfed_early & _).
  destruct (wait_loop_fed (ticks env) (last_tick env) r1)
    as (r' & loop_evs & Eloop & Hfed).
  rewrite (run_program_imported env _ _ _ Hi
             (main_running env r r1 r' early_evs loop_evs Hm Hr Hd Hs Eearly Eloop)).
  cbn [interpreter_exit snd].
  rewrite !fed_app, Hfed, Hfed_early. simpl. rewrite !app_nil_r.
  symmetry. apply map_app.
Qed.

(** X19: when one of the three third-party packages is missing, the import
    that fails is not guarded: nothing is printed on stdout, and the run ends
    with status 1 on the interpreter's report of the ModuleNotFoundError that
    names the first missing package. *)
Theorem missing_package_is_uncaught env :
  ~ ("sounddevice" ∈ installed env /\ "numpy" ∈ installed env /\ "vosk" ∈ installed env) ->
  fst (run_program env) = Exit 1
  /\ output Stdout (snd (run_program env)) = ""
  /\ exists pre name,
       (name ∉ installed env)
       /\ snd (run_program env)
          = pre ++ [ETraceback (ModuleNotFoundError ("No module named '" +:+ name +:+ "'"))].
Proof.
  intros Hno. py_main.
  destruct (bool_decide ("sounddevice" ∈ installed env)) eqn:Hsd.
  2:{ apply bool_decide_eq_false_1 in Hsd. repeat split.
      exists [EImport "sounddevice"], "sounddevice". now split. }
  destruct (bool_decide ("numpy" ∈ installed env)) eqn:Hnp.
  2:{ apply bool_decide_eq_false_1 in Hnp. repeat split.
      exists [EImport "sounddevice"; EImport "numpy"], "numpy". now split. }
  destruct (bool_decide ("vosk" ∈ installed env)) eqn:Hv.
  2:{ apply bool_decide_eq_false_1 in Hv. repeat split.
      exists [EImport "sounddevice"; EImport "numpy"; EImport "vosk"], "vosk". now split. }
  exfalso. apply Hno.
  apply bool_decide_eq_true_1 in Hsd, Hnp, Hv. auto.
Qed.

Lemma count_accept_fed (evs : list Event) :
  count_events is_accept evs = length (fed evs).
Proof.
  induction evs as [|e evs IH]; [reflexivity|].
  destruct e; simpl; now rewrite IH.
Qed.

(** C10: a callback run while the global is None leaves by AttributeError,
    which the driver layer records as a fault and which ends the stream.  In
    every run of the program, where the driver calls the callback from the
    start of the stream on: no fault is recorded; every block delivered
    reaches AcceptWaveform (as many calls as blocks in the run that reaches
    the loop, none in the others); and either there is no stream call and no
    callback at all, or the decoder was built and the trace opens the stream
    only after the imports, the banner, the model load and the decoder's
    construction, with every stream call and callback after that point. *)
Theorem C10_callback_always_has_recognizer :
  (forall c : Chunk,
     deliver c (mkGlobals (@None R))
     = (Returned tt, mkState None true,
        status_log (status c)
        ++ [ECallbackFault
              (AttributeError "'NoneType' object has no attribute 'AcceptWaveform'")]))
  /\ forall env,
       count_events is_fault (snd (run_program env)) = 0
       /\ count_events is_accept (snd (run_program env))
          = match fst (run_program env) with
            | KilledBySigint =>
                length (early_blocks env ++ concat (ticks env) ++ last_tick env)
            | Exit _ => 0
            end
       /\ (count_events (fun e => is_stream_event e || is_accept e || is_fault e)
             (snd (run_program env)) = 0
           \/ exists r rest,
                recognizer_new env MODEL_PATH SAMPLE_RATE = Some r
                /\ snd (run_program env)
                   = imports_done ++ banner
                     ++ [EModelLoad MODEL_PATH; ERecognizerNew SAMPLE_RATE;
                         EPrint Stdout "Model loaded successfully. Starting microphone input." lf;
                         EPrint Stdout "-----------------------------------------------------" lf]
                     ++ EStreamOpen stream_config :: rest).
Proof.
  split.
  { intros c. unfold deliver. cbn [stream_aborted mkGlobals].
    now rewrite callback_without_recognizer. }
  intros env.
  destruct (run_cases env)
    as [(_ & evs & E & Hev)
       |[(_ & _ & E)
        |[(_ & _ & _ & E)
         |[(r & msg & _ & _ & Hr & _ & E)
          |[(r & msg & _ & _ & Hr & _ & _ & E)
           |(r & r1 & r' & early_evs & loop_evs
             & _ & _ & Hr & _ & _ & Eearly & Hearly & Eloop & Hloop & E)]]]]];
    rewrite E; cbn [fst snd].
  - rewrite !(count_events_none _ is_startup_event evs) by
      (exact Hev || (intros e; destruct e; simpl; congruence)).
    auto.
  - repeat split; try reflexivity. left. reflexivity.
  - repeat split; try reflexivity. left. reflexivity.
  - repeat split; try reflexivity. right. exists r. eexists. split; [exact Hr | reflexivity].
  - repeat split; try reflexivity. right. exists r. eexists. split; [exact Hr | reflexivity].
  - destruct (deliver_all_summary (early_blocks env) r)
      as (r1' & ee & Ee & Hfe & _).
    rewrite Eearly in Ee. assert (ee = early_evs) as -> by congruence. clear Ee r1'.
    destruct (wait_loop_fed (ticks env) (last_tick env) r1)
      as (r'' & le & El & Hfl).
    rewrite Eloop in El. assert (le = loop_evs) as -> by congruence. clear El r''.
    split; [|split].
    + rewrite !count_events_app.
      rewrite (count_events_none is_fault _ _ loop_event_not_fault Hloop),
        (count_events_none is_fault _ _ loop_event_not_fault Hearly).
      reflexivity.
    + rewrite count_accept_fed, !fed_app, Hfe, Hfl. simpl.
      rewrite !app_nil_r, <- map_app. apply length_map.
    + right. exists r. eexists. split; [exact Hr | reflexivity].
Qed.

End LifecycleCoverage.

(** ** The further properties on concrete runs *)

Section MoreConcreteRuns.
Import PyStr Terminal.

Lemma missing_key_witness :
  output Stdout
    (snd (run_callback (block no_flags) (mkGlobals (Some (mkKeyless true)))))
  = listening_prompt.
Proof.
  rewrite (missing_key_is_empty_text (block no_flags) (mkKeyless true) true
             (mkKeyless true) (mkKeyless true) ∅).
  - reflexivity.
  - reflexivity.
  - reflexivity.
  - reflexivity.
Defined.

Lemma final_prints_witness :
  printed_lines
    (snd (run_callback (block no_flags) (mkGlobals (Some (mkScripted [(true, "  ok ")] "")))))
  = ["TRANSCRIPTION: ok"].
Proof.
  destruct (final_prints_iff_text (block no_flags) (mkScripted [(true, "  ok ")] "")
              (mkScripted [] "  ok ") (mkScripted [] "") {[ "text" := "  ok " ]})
    as [Hlines _].
  - reflexivity.
  - reflexivity.
  - rewrite Hlines. vm_compute. reflexivity.
Defined.

Lemma partial_writes_witness :
  output Stdout
    (snd (run_callback (block no_flags) (mkGlobals (Some (mkScripted [(false, " ")] "")))))
  = "".
Proof.
  destruct (partial_writes_iff_text (block no_flags) (mkScripted [(false, " ")] "")
              (mkScripted [] " ") (mkScripted [] " ") {[ "partial" := " " ]})
    as [_ Hout].
  - reflexivity.
  - reflexivity.
  - rewrite Hout. vm_compute. reflexivity.
Defined.

Lemma cursor_home_witness :
  col (feed (feed blank (speaking_line "hello"))
         (output Stdout
            (snd (run_callback (block no_flags)
                    (mkGlobals (Some (mkScripted [(true, text_with_return)] ""))))))) = 0.
Proof.
  apply (callback_keeps_cursor_home (feed blank (speaking_line "hello")) (block no_flags)
           (mkScripted [(true, text_with_return)] "")).
  reflexivity.
Defined.

Lemma speaking_line_witness :
  shown (feed (feed blank (speaking_line long_text)) (speaking_line "hi"))
  = "[Speaking... hi]" +:+ spaces 64 +:+ "r away]".
Proof.
  rewrite (speaking_line_overwrites (feed blank (speaking_line long_text)) "hi" eq_refl).
  vm_compute. reflexivity.
Defined.

Lemma tobytes_witness :
  frombytes (tobytes [0; 258; -1; -32768; 32767]%Z) = [0; 258; -1; -32768; 32767]%Z.
Proof.
  apply (tobytes_round_trip [0; 258; -1; -32768; 32767]%Z).
  repeat constructor; lia.
Defined.

Lemma import_guard_witness :
  fst (run_program env_no_names) = Exit 1.
Proof.
  apply (import_guard_reports_missing_names env_no_names); compute_done.
Defined.

Lemma recognizer_failure_witness :
  fst (run_program env_no_recognizer) = Exit 0.
Proof.
  assert (imports_ok env_no_recognizer) as Hi by (unfold imports_ok; compute_done).
  assert (MODEL_PATH ∈ model_dirs env_no_recognizer) as Hm by compute_done.
  exact (proj1 (proj2 (recognizer_failure_handled_as_load_failure
                         env_no_recognizer Hi Hm eq_refl))).
Defined.

Lemma start_failure_witness :
  close_calls (snd (run_program env_no_start)) = 0.
Proof.
  assert (imports_ok env_no_start) as Hi by (unfold imports_ok; compute_done).
  assert (MODEL_PATH ∈ model_dirs env_no_start) as Hm by compute_done.
  exact (proj1 (proj2 (start_failure_is_uncaught env_no_start (mkScripted [] "")
                         "Error starting stream" Hi Hm eq_refl eq_refl eq_refl))).
Defined.

Lemma delivered_blocks_witness :
  length (fed (snd (run_program early_env))) = 4.
Proof.
  assert (imports_ok early_env) as Hi by (unfold imports_ok; compute_done).
  assert (MODEL_PATH ∈ model_dirs early_env) as Hm by compute_done.
  rewrite (delivered_blocks_all_fed early_env (mkScripted hello_script "")
             Hi Hm eq_refl eq_refl eq_refl).
  reflexivity.
Defined.

Lemma missing_package_witness :
  output Stdout (snd (run_program env_no_vosk)) = "".
Proof.
  apply (missing_package_is_uncaught env_no_vosk).
  intros (_ & _ & Hv). revert Hv. compute_done.
Defined.

End MoreConcreteRuns.
